(** * Convoy motion detector: a shallow embedding of [motion_detector.py]

    The class [MotionDetector] is embedded as a record of its fields and a
    state-and-exception monad over a [World]: the object together with what
    the process does to its surroundings (lines printed, messages handed to
    LCM, clock readings taken).  Every method of the class is a computation
    in that monad, written statement by statement after the source.  What
    the module takes from outside is a parameter: the clock, the floats
    and the layout of the messages are a [Platform], and what [encode()]
    and [lcm.publish] refuse by raising is a [Wire]. *)

From Stdlib Require Import ZArith List String Ascii Bool Lia.
From Stdlib Require Import DecimalString.
From Stdlib.Strings Require Byte.
From Stdlib Require QArith_base.
From Stdlib Require SpecFloat.
Import ListNotations.

Local Open Scope string_scope.
Local Open Scope Z_scope.

(** ** Python values used by the module *)

(** [str(n)] for an [int]. *)
Definition str_int (n : Z) : string := NilZero.string_of_int (Z.to_int n).

(** [str(b)] for a [bool]. *)
Definition str_bool (b : bool) : string := if b then "True" else "False".

(** [s[:-k]]: everything but the last [k] characters (empty when [s] is
    shorter than [k]). *)
Definition drop_last (k : nat) (s : string) : string :=
  substring 0 (String.length s - k) s.

(** [needle in hay] on strings. *)
Fixpoint contains (needle hay : string) : bool :=
  if prefix needle hay then true
  else match hay with
       | EmptyString => false
       | String _ rest => contains needle rest
       end.

(** [l[i]] on a list: indices run from [-len(l)] to [len(l) - 1], negative
    ones counting from the end; anything else raises [IndexError]. *)
Definition getitem {A} (l : list A) (i : Z) : option A :=
  let n := Z.of_nat (List.length l) in
  if (0 <=? i) && (i <? n) then nth_error l (Z.to_nat i)
  else if (- n <=? i) && (i <? 0) then nth_error l (Z.to_nat (n + i))
  else None.

(** [l[-k:]]: the last [k] elements (all of [l] when it is shorter). *)
Definition last_n {A} (k : nat) (l : list A) : list A :=
  skipn (List.length l - k) l.

(** [x in l] for a list of [int]. *)
Definition int_in (x : Z) (l : list Z) : bool := existsb (Z.eqb x) l.

Definition bytes := list Byte.byte.

(** ** The LCM message types of package [convoy]

    The generated bindings are not part of the module; their fields are the
    ones the module assigns and reads. *)

Module heartbeat_t.
Record t := Build { timestamp : Z; vehicle_id : Z }.
End heartbeat_t.

Module warning_t.
Record t := Build
  { timestamp : Z; vehicle_id : Z; danger_detected : bool;
    description : string }.
End warning_t.

Module mode_t.
Record t := Build
  { timestamp : Z; vehicle_id : Z; mode : Z; mode_description : string }.
End mode_t.

Module status_t.
Record t := Build
  { timestamp : Z; vehicle_id : Z; driving_mode : Z;
    motion_detected : bool; brake_lights_on : bool;
    system_running : bool; status_message : string }.
End status_t.

(** The result of a call: it returns a value or raises an exception, of
    which the module only ever uses the text ([{e}]). *)
Inductive outcome (A : Type) : Type :=
| Returned (a : A)
| Raised (e : string).
Arguments Returned {A} a.
Arguments Raised {A} e.

(** ** What the module takes from its platform

    Floating-point time, the clock, [strftime] and the LCM codecs are used
    but not defined by the module.  The clock is read through a counter:
    the [n]-th reading of the process is [time_time n] (for [time.time()])
    or [datetime_now n] (for [datetime.now()]).  An encoder gives the
    bytes of a message that [encode()] accepts; which messages it accepts
    is said by the wire, below. *)
Class Platform := {
  float : Type;
  (** [int(t * 1000000)] *)
  to_microseconds : float -> Z;
  (** [n / 1000000.0] *)
  to_seconds : Z -> float;
  (** [f"{t}"] *)
  str_float : float -> string;
  time_time : nat -> float;
  datetime : Type;
  datetime_now : nat -> datetime;
  strftime : datetime -> string -> string;
  heartbeat_encode : heartbeat_t.t -> bytes;
  warning_encode : warning_t.t -> bytes;
  mode_encode : mode_t.t -> bytes;
  status_encode : status_t.t -> bytes;
  warning_decode : bytes -> outcome warning_t.t;
  mode_decode : bytes -> outcome mode_t.t;
}.

(** ** The object and its world *)

(** The fields of a [MotionDetector] that hold data.  The camera handle,
    the background subtractor, the LCM handle and the three thread handles
    are resources of the platform and carry no data of their own. *)
Record MotionDetector := {
  camera_id : Z;
  threshold : Z;
  min_area : Z;
  vehicle_id : Z;
  driving_mode : Z;
  motion_detected : bool;
  brake_lights_on : bool;
  running : bool;
  log_messages : list string;
}.

Definition with_driving_mode (v : Z) (o : MotionDetector) : MotionDetector :=
  {| camera_id := camera_id o; threshold := threshold o;
     min_area := min_area o; vehicle_id := vehicle_id o;
     driving_mode := v; motion_detected := motion_detected o;
     brake_lights_on := brake_lights_on o; running := running o;
     log_messages := log_messages o |}.

Definition with_motion_detected (v : bool) (o : MotionDetector) : MotionDetector :=
  {| camera_id := camera_id o; threshold := threshold o;
     min_area := min_area o; vehicle_id := vehicle_id o;
     driving_mode := driving_mode o; motion_detected := v;
     brake_lights_on := brake_lights_on o; running := running o;
     log_messages := log_messages o |}.

Definition with_brake_lights_on (v : bool) (o : MotionDetector) : MotionDetector :=
  {| camera_id := camera_id o; threshold := threshold o;
     min_area := min_area o; vehicle_id := vehicle_id o;
     driving_mode := driving_mode o; motion_detected := motion_detected o;
     brake_lights_on := v; running := running o;
     log_messages := log_messages o |}.

Definition with_running (v : bool) (o : MotionDetector) : MotionDetector :=
  {| camera_id := camera_id o; threshold := threshold o;
     min_area := min_area o; vehicle_id := vehicle_id o;
     driving_mode := driving_mode o; motion_detected := motion_detected o;
     brake_lights_on := brake_lights_on o; running := v;
     log_messages := log_messages o |}.

Definition with_log_messages (v : list string) (o : MotionDetector) : MotionDetector :=
  {| camera_id := camera_id o; threshold := threshold o;
     min_area := min_area o; vehicle_id := vehicle_id o;
     driving_mode := driving_mode o; motion_detected := motion_detected o;
     brake_lights_on := brake_lights_on o; running := running o;
     log_messages := v |}.

(** What the process does that others can see. *)
Inductive event :=
| Print (line : string)
| Publish (channel : string) (data : bytes).

(** The world: the object, the events so far in the order they happened,
    each with the object as it was at that moment, and the number of clock
    readings taken. *)
Record World := {
  self : MotionDetector;
  trace : list (event * MotionDetector);
  clock : nat;
}.

Definition is_publish_on (channel : string) (e : event) : bool :=
  match e with
  | Publish c _ => String.eqb c channel
  | Print _ => false
  end.

Definition is_publish (e : event) : bool :=
  match e with Print _ => false | Publish _ _ => true end.

(** ** The monad *)

Definition M (A : Type) : Type := World -> outcome A * World.

Definition ret {A} (a : A) : M A := fun w => (Returned a, w).

Definition bind {A B} (m : M A) (k : A -> M B) : M B :=
  fun w =>
    match m w with
    | (Returned a, w') => k a w'
    | (Raised e, w') => (Raised e, w')
    end.

Definition raise {A} (e : string) : M A := fun w => (Raised e, w).

(** [try: body / except Exception as e: handler(e)] *)
Definition try_except {A} (body : M A) (handler : string -> M A) : M A :=
  fun w =>
    match body w with
    | (Returned a, w') => (Returned a, w')
    | (Raised e, w') => handler e w'
    end.

(** [try: body / finally: final] *)
Definition try_finally {A} (body : M A) (final : M unit) : M A :=
  fun w =>
    match body w with
    | (r, w') =>
        match final w' with
        | (Returned _, w'') => (r, w'')
        | (Raised e, w'') => (Raised e, w'')
        end
    end.

Declare Scope monad_scope.
Delimit Scope monad_scope with monad.
Notation "x <- m ;; k" := (bind m (fun x => k))
  (at level 61, m at next level, right associativity) : monad_scope.
Notation "m ;; k" := (bind m (fun _ => k))
  (at level 61, right associativity) : monad_scope.
Local Open Scope monad_scope.

(** The world a computation leaves and the outcome it has. *)
Definition exec {A} (m : M A) (w : World) : World := snd (m w).
Definition result {A} (m : M A) (w : World) : outcome A := fst (m w).

(** Reading and writing the fields of [self]. *)
Definition get {A} (field : MotionDetector -> A) : M A :=
  fun w => (Returned (field (self w)), w).

Definition set (update : MotionDetector -> MotionDetector) : M unit :=
  fun w => (Returned tt,
            {| self := update (self w); trace := trace w; clock := clock w |}).

Definition emit (e : event) : M unit :=
  fun w => (Returned tt,
            {| self := self w; trace := (trace w ++ [(e, self w)])%list;
               clock := clock w |}).

(** [print(line)] *)
Definition print (line : string) : M unit := emit (Print line).

(** A value computed outside the monad that may raise. *)
Definition lift {A} (r : outcome A) : M A := fun w => (r, w).

(** [time.sleep(seconds)]: nothing happens to the world. *)
Definition time_sleep : M unit := ret tt.

(** Taking a reading of the clock. *)
Definition read_clock : M nat :=
  fun w => (Returned (clock w),
            {| self := self w; trace := trace w; clock := S (clock w) |}).

(** [l[i]], raising [IndexError] outside the list. *)
Definition index {A} (l : list A) (i : Z) : M A :=
  match getitem l i with
  | Some a => ret a
  | None => raise "list index out of range"
  end.

Definition newline : string := String (ascii_of_nat 10) EmptyString.

(** ** What the wire refuses

    [encode()] of a generated binding packs the fields of its message with
    [struct.pack], which raises [struct.error] for a field outside the
    range of its type, and [lcm.publish] raises when the transport fails.
    A wire says what is refused, and with which exception: a message by
    its [encode()], or some bytes on a channel by the transport, in the
    world as it is when [publish] is called.  [None] is for what goes
    through. *)
Class Wire := {
  heartbeat_refused : heartbeat_t.t -> option string;
  warning_refused : warning_t.t -> option string;
  mode_refused : mode_t.t -> option string;
  status_refused : status_t.t -> option string;
  publish_refused : World -> string -> bytes -> option string;
}.

(** The wire that refuses nothing: every field a vehicle sends is inside
    the range of its type, and the transport is up. *)
Definition lossless : Wire :=
  {| heartbeat_refused := fun _ => None;
     warning_refused := fun _ => None;
     mode_refused := fun _ => None;
     status_refused := fun _ => None;
     publish_refused := fun _ _ _ => None |}.

(** [message.encode()]: the bytes of [message], unless it is refused. *)
Definition encode {A} (refused : A -> option string) (layout : A -> bytes)
    (message : A) : M bytes :=
  match refused message with
  | None => ret (layout message)
  | Some e => raise e
  end.

(** [self.lcm.publish(channel, data)] *)
Definition lcm_publish {W : Wire} (channel : string) (data : bytes)
  : M unit :=
  fun w =>
    match publish_refused w channel data with
    | None => emit (Publish channel data) w
    | Some e => raise e w
    end.

(** ** The class [MotionDetector] *)

(** [MotionDetector(camera_id=0, threshold=25, min_area=500, vehicle_id=1)] *)
Definition init (camera_id threshold min_area vehicle_id : Z) : MotionDetector :=
  {| camera_id := camera_id;
     threshold := threshold;
     min_area := min_area;
     vehicle_id := vehicle_id;
     driving_mode := 0;
     motion_detected := false;
     brake_lights_on := false;
     running := false;
     log_messages := [] |}.

(** The world of a fresh process around a new object. *)
Definition boot (o : MotionDetector) : World :=
  {| self := o; trace := []; clock := 0 |}.

Definition mode_names : list string :=
  ["Single Vehicle"; "Head in Convoy"; "In Convoy"].

Section Methods.
Context {P : Platform} {W : Wire}.

(** [time.time()] *)
Definition time_now : M float :=
  n <- read_clock ;; ret (time_time n).

(** [datetime.now().strftime(format)] *)
Definition now_strftime (format : string) : M string :=
  n <- read_clock ;; ret (strftime (datetime_now n) format).

Definition log_event (message : string) : M unit :=
  stamp <- now_strftime "%Y-%m-%d %H:%M:%S.%f" ;;
  let timestamp := drop_last 3 stamp in
  let log_entry := "[" ++ timestamp ++ "] " ++ message in
  set (fun o => with_log_messages (log_messages o ++ [log_entry])%list o) ;;
  print log_entry.

Definition turn_on_brake_lights : M unit :=
  lit <- get brake_lights_on ;;
  if negb lit then
    set (with_brake_lights_on true) ;;
    t <- now_strftime "%H:%M:%S" ;;
    print ("[" ++ t ++ "] BRAKE LIGHTS ON")
  else ret tt.

Definition turn_off_brake_lights : M unit :=
  lit <- get brake_lights_on ;;
  if lit then
    set (with_brake_lights_on false) ;;
    t <- now_strftime "%H:%M:%S" ;;
    print ("[" ++ t ++ "] BRAKE LIGHTS OFF")
  else ret tt.

Definition send_warning_message (timestamp : float) (description : string)
  : M unit :=
  vid <- get vehicle_id ;;
  let warning :=
    {| warning_t.timestamp := to_microseconds timestamp;
       warning_t.vehicle_id := vid;
       warning_t.danger_detected := true;
       warning_t.description := description |} in
  data <- encode warning_refused warning_encode warning ;;
  lcm_publish "WARNING" data ;;
  vid' <- get vehicle_id ;;
  log_event ("Warning message sent from vehicle " ++ str_int vid' ++ ": "
             ++ str_float timestamp).

Definition handle_driving_mode : M unit :=
  current_time <- time_now ;;
  mode <- get driving_mode ;;
  if mode =? 0 then
    motion <- get motion_detected ;;
    if motion then
      turn_on_brake_lights ;;
      log_event "Mode 0: Object detected, brake lights ON"
    else turn_off_brake_lights
  else
    mode <- get driving_mode ;;
    if mode =? 1 then
      motion <- get motion_detected ;;
      if motion then
        turn_on_brake_lights ;;
        send_warning_message current_time "Motion detected" ;;
        log_event "Mode 1: Object detected, brake lights ON, warning sent"
      else turn_off_brake_lights
    else
      mode <- get driving_mode ;;
      if mode =? 2 then ret tt else ret tt.

(** One turn of the loop of [send_heartbeat], up to its [time.sleep]. *)
Definition send_heartbeat_tick : M unit :=
  mode <- get driving_mode ;;
  (if int_in mode [1; 2] then
     t <- time_now ;;
     let current_time := to_microseconds t in
     vid <- get vehicle_id ;;
     let heartbeat :=
       {| heartbeat_t.timestamp := current_time;
          heartbeat_t.vehicle_id := vid |} in
     data <- encode heartbeat_refused heartbeat_encode heartbeat ;;
     lcm_publish "HEARTBEAT" data ;;
     vid' <- get vehicle_id ;;
     log_event ("Heartbeat sent from vehicle " ++ str_int vid' ++ ": "
                ++ str_int current_time)
   else ret tt) ;;
  time_sleep.

(** [send_heartbeat], cut off after [turns] turns of its loop. *)
Fixpoint send_heartbeat (turns : nat) : M unit :=
  match turns with
  | O => ret tt
  | S turns' =>
      go <- get running ;;
      if go then send_heartbeat_tick ;; send_heartbeat turns'
      else ret tt
  end.

Definition handle_warning_message (timestamp : float) : M unit :=
  mode <- get driving_mode ;;
  if mode =? 2 then
    turn_on_brake_lights ;;
    send_warning_message timestamp "Warning relayed" ;;
    log_event ("Warning received and repeated: " ++ str_float timestamp)
  else ret tt.

Definition _handle_warning_message (channel : string) (data : bytes)
  : M unit :=
  try_except
    (msg <- lift (warning_decode data) ;;
     vid <- get vehicle_id ;;
     if negb (warning_t.vehicle_id msg =? vid) then
       let timestamp := to_seconds (warning_t.timestamp msg) in
       log_event ("Received warning from vehicle "
                  ++ str_int (warning_t.vehicle_id msg) ++ ": "
                  ++ warning_t.description msg) ;;
       mode <- get driving_mode ;;
       if mode =? 2 then handle_warning_message timestamp else ret tt
     else ret tt)
    (fun e => log_event ("Error handling warning message: " ++ e)).

Definition _handle_mode_message (channel : string) (data : bytes)
  : M unit :=
  try_except
    (msg <- lift (mode_decode data) ;;
     vid <- get vehicle_id ;;
     if negb (mode_t.vehicle_id msg =? vid) then
       log_event ("Vehicle " ++ str_int (mode_t.vehicle_id msg)
                  ++ " changed mode to " ++ str_int (mode_t.mode msg)
                  ++ ": " ++ mode_t.mode_description msg)
     else ret tt)
    (fun e => log_event ("Error handling mode message: " ++ e)).

Definition set_driving_mode (mode : Z) : M unit :=
  if int_in mode [0; 1; 2] then
    old_mode <- get driving_mode ;;
    set (with_driving_mode mode) ;;
    t <- time_now ;;
    vid <- get vehicle_id ;;
    name <- index mode_names mode ;;
    let mode_msg :=
      {| mode_t.timestamp := to_microseconds t;
         mode_t.vehicle_id := vid;
         mode_t.mode := mode;
         mode_t.mode_description := name |} in
    data <- encode mode_refused mode_encode mode_msg ;;
    lcm_publish "MODE" data ;;
    name' <- index mode_names mode ;;
    log_event ("Driving mode changed from " ++ str_int old_mode ++ " to "
               ++ str_int mode ++ " (" ++ name' ++ ")") ;;
    name'' <- index mode_names mode ;;
    print ("Driving mode set to: " ++ str_int mode ++ " (" ++ name'' ++ ")")
  else
    print ("Invalid driving mode: " ++ str_int mode).

Definition send_status_message : M unit :=
  t <- time_now ;;
  vid <- get vehicle_id ;;
  mode <- get driving_mode ;;
  motion <- get motion_detected ;;
  lit <- get brake_lights_on ;;
  go <- get running ;;
  vid' <- get vehicle_id ;;
  let status :=
    {| status_t.timestamp := to_microseconds t;
       status_t.vehicle_id := vid;
       status_t.driving_mode := mode;
       status_t.motion_detected := motion;
       status_t.brake_lights_on := lit;
       status_t.system_running := go;
       status_t.status_message :=
         "Vehicle " ++ str_int vid' ++ " operational" |} in
  data <- encode status_refused status_encode status ;;
  lcm_publish "STATUS" data ;;
  vid'' <- get vehicle_id ;;
  log_event ("Status message sent from vehicle " ++ str_int vid'').

Definition show_status : M unit :=
  print (newline ++ "=== Status ===") ;;
  mode <- get driving_mode ;;
  mode' <- get driving_mode ;;
  name <- index mode_names mode' ;;
  print ("Driving Mode: " ++ str_int mode ++ " (" ++ name ++ ")") ;;
  motion <- get motion_detected ;;
  print ("Motion Detected: " ++ str_bool motion) ;;
  lit <- get brake_lights_on ;;
  print ("Brake Lights: " ++ (if lit then "ON" else "OFF")) ;;
  go <- get running ;;
  print ("System Running: " ++ str_bool go) ;;
  print "".

Fixpoint print_each (lines : list string) : M unit :=
  match lines with
  | [] => ret tt
  | log :: rest => print log ;; print_each rest
  end.

Definition show_logs : M unit :=
  print (newline ++ "=== Recent Logs ===") ;;
  logs <- get log_messages ;;
  print_each (last_n 10 logs) ;;
  print "".

End Methods.

(** ** The loops and the console *)

(** What the sensing loop gets in one turn: [cap.read()] gave a frame or
    not, [detect_motion] said whether something moves in it, and
    [cv2.waitKey(1)] returned a key code. *)
Record frame := { motion : bool; key : Z }.

(** What [input()] gives: a line, here already stripped and lowered, or a
    [KeyboardInterrupt]. *)
Inductive console :=
| Line (cmd : string)
| Interrupt.

Section Loops.
Context {P : Platform} {W : Wire}.

(** [process_frame] over the frames the camera delivers; [None] is a
    failed read. *)
Fixpoint process_frame (frames : list (option frame)) : M unit :=
  match frames with
  | [] => ret tt
  | f :: rest =>
      go <- get running ;;
      if go then
        match f with
        | None => print "Failed to read frame"
        | Some fr =>
            set (with_motion_detected (motion fr)) ;;
            handle_driving_mode ;;
            if Z.land (key fr) 255 =? 113 then ret tt
            else time_sleep ;; process_frame rest
        end
      else ret tt
  end.

(** [self.lcm.handle_timeout(100)]: within the timeout LCM delivers one
    pending message to the handler subscribed to its channel, or
    nothing. *)
Definition lcm_handle_timeout (pending : option (string * bytes)) : M unit :=
  match pending with
  | None => ret tt
  | Some (channel, data) =>
      if String.eqb channel "WARNING" then _handle_warning_message channel data
      else if String.eqb channel "MODE" then _handle_mode_message channel data
      else ret tt
  end.

Fixpoint _lcm_handler_loop (arrivals : list (option (string * bytes)))
  : M unit :=
  match arrivals with
  | [] => ret tt
  | a :: rest =>
      go <- get running ;;
      if go then
        try_except (lcm_handle_timeout a)
          (fun e =>
             go' <- get running ;;
             if go' then log_event ("LCM handler error: " ++ e)
             else ret tt) ;;
        _lcm_handler_loop rest
      else ret tt
  end.

Definition initialize_camera (opened : bool) : M unit :=
  if negb opened then
    cam <- get camera_id ;;
    raise ("Cannot open camera " ++ str_int cam)
  else
    cam <- get camera_id ;;
    print ("Camera " ++ str_int cam ++ " initialized").

Definition stop : M unit :=
  set (with_running false) ;;
  print "Motion detection system stopped".

(** One command of the console, [q] apart. *)
Definition command (cmd : string) : M unit :=
  if String.eqb cmd "0" then set_driving_mode 0
  else if String.eqb cmd "1" then set_driving_mode 1
  else if String.eqb cmd "2" then set_driving_mode 2
  else if String.eqb cmd "s" then show_status
  else if String.eqb cmd "l" then show_logs
  else if String.eqb cmd "st" then send_status_message
  else if String.eqb cmd "w" then
    t <- time_now ;; send_warning_message t "Manual test warning"
  else ret tt.

Fixpoint command_loop (input : list console) : M unit :=
  match input with
  | [] =>
      go <- get running ;;
      if go then raise "EOF when reading a line" else ret tt
  | c :: rest =>
      go <- get running ;;
      if go then
        match c with
        | Interrupt => ret tt
        | Line cmd =>
            if String.eqb cmd "q" then ret tt
            else command cmd ;; command_loop rest
        end
      else ret tt
  end.

(** [start] on the controlling thread; the three threads it starts run
    beside it and are the loops above. *)
Definition start (opened : bool) (input : list console) : M unit :=
  try_finally
    (try_except
       (initialize_camera opened ;;
        set (with_running true) ;;
        vid <- get vehicle_id ;;
        print ("Motion detection system started for vehicle " ++ str_int vid) ;;
        print "Commands:" ;;
        print "  0, 1, 2: Set driving mode" ;;
        print "  s: Show status" ;;
        print "  l: Show logs" ;;
        print "  st: Send status message" ;;
        print "  w: Simulate warning (for testing)" ;;
        print "  q: Quit" ;;
        command_loop input)
       (fun e => print ("Error: " ++ e)))
    stop.

(** [main] after [parse_args], which admits 0, 1 and 2 for [--mode]:
    the outcome of the process and the world it leaves. *)
Definition main (camera threshold min_area mode vehicle_id : Z)
    (opened : bool) (input : list console) : outcome unit * World :=
  (set_driving_mode mode ;; start opened input)
    (boot (init camera threshold min_area vehicle_id)).

(** ** The object under the threads that use it

    The calls the threads make on the object, each taken as a whole: a
    frame of the sensing loop, a turn of the heartbeat loop, an arrival
    at the LCM loop, a command of the console, the call of
    [set_driving_mode] in [main], and the start and the end of
    [start]. *)
Inductive action :=
| Sense (f : frame)
| Tick
| Arrive (channel : string) (data : bytes)
| Command (cmd : string)
| SetMode (mode : Z)
| Start
| Stop.

Definition perform (a : action) : M unit :=
  match a with
  | Sense f => set (with_motion_detected (motion f)) ;; handle_driving_mode
  | Tick => send_heartbeat_tick
  | Arrive channel data => lcm_handle_timeout (Some (channel, data))
  | Command cmd => command cmd
  | SetMode mode => set_driving_mode mode
  | Start => set (with_running true)
  | Stop => stop
  end.

(** The worlds a process can be in, its calls taken one after another. *)
Inductive reachable : World -> Prop :=
| reachable_boot camera threshold min_area vehicle_id :
    reachable (boot (init camera threshold min_area vehicle_id))
| reachable_perform w a :
    reachable w -> reachable (exec (perform a) w).

End Loops.

(** ** A platform to run the module on

    Time is a fraction of seconds, the clock advances by one second a
    reading from a fixed start, and the codecs are a two- or three-byte toy
    format: a tag, the sender and, for a mode change, the mode. *)
Module Bench.

Definition to_microseconds (t : QArith_base.Q) : Z :=
  Z.quot (QArith_base.Qnum t * 1000000) (Z.pos (QArith_base.Qden t)).

Definition to_seconds (n : Z) : QArith_base.Q :=
  QArith_base.Qmake n 1000000.

Definition str_float (t : QArith_base.Q) : string :=
  str_int (QArith_base.Qnum t) ++ "/" ++ str_int (Z.pos (QArith_base.Qden t)).

Definition time_time (n : nat) : QArith_base.Q :=
  QArith_base.Qmake (1700000000 + Z.of_nat n) 1.

Definition two_digits (n : nat) : string :=
  str_int (Z.of_nat (n / 10) mod 10) ++ str_int (Z.of_nat n mod 10).

(** The time of day is 12:00 and [d] seconds, [d] below 60. *)
Definition strftime (d : nat) (format : string) : string :=
  let hms := "12:00:" ++ two_digits (d mod 60) in
  if String.eqb format "%H:%M:%S" then hms
  else "2025-01-01 " ++ hms ++ ".000000".

Definition byte_of (n : Z) : Byte.byte :=
  match Byte.of_N (Z.to_N (n mod 256)) with
  | Some b => b
  | None => Byte.x00
  end.

Definition int_of (b : Byte.byte) : Z := Z.of_N (Byte.to_N b).

Definition heartbeat_encode (m : heartbeat_t.t) : bytes :=
  [Byte.x48; byte_of (heartbeat_t.vehicle_id m)].

Definition warning_encode (m : warning_t.t) : bytes :=
  [Byte.x57; byte_of (warning_t.vehicle_id m)].

Definition mode_encode (m : mode_t.t) : bytes :=
  [Byte.x4d; byte_of (mode_t.vehicle_id m); byte_of (mode_t.mode m)].

Definition status_encode (m : status_t.t) : bytes :=
  [Byte.x53; byte_of (status_t.vehicle_id m)].

Definition warning_decode (data : bytes) : outcome warning_t.t :=
  match data with
  | [Byte.x57; v] =>
      Returned {| warning_t.timestamp := 1700000000000000;
                  warning_t.vehicle_id := int_of v;
                  warning_t.danger_detected := true;
                  warning_t.description := "Motion detected" |}
  | _ => Raised "Decode error"
  end.

Definition mode_decode (data : bytes) : outcome mode_t.t :=
  match data with
  | [Byte.x4d; v; m] =>
      Returned {| mode_t.timestamp := 1700000000000000;
                  mode_t.vehicle_id := int_of v;
                  mode_t.mode := int_of m;
                  mode_t.mode_description :=
                    match getitem mode_names (int_of m) with
                    | Some name => name
                    | None => ""
                    end |}
  | _ => Raised "Decode error"
  end.

Definition platform : Platform :=
  Build_Platform
    QArith_base.Q to_microseconds to_seconds str_float time_time
    nat (fun n => n) strftime
    heartbeat_encode warning_encode mode_encode status_encode
    warning_decode mode_decode.

(** Vehicle 7 as constructed, then with a mode, a brake state and the
    running flag chosen. *)
Definition vehicle (mode : Z) (lit : bool) : World :=
  boot (with_running true
          (with_brake_lights_on lit
             (with_driving_mode mode (init 0 25 500 7)))).

(** A warning from vehicle 3 and one from vehicle 7. *)
Definition warning_from_3 : bytes := [Byte.x57; Byte.x03].
Definition warning_from_7 : bytes := [Byte.x57; Byte.x07].
Definition mode_from_7 : bytes := [Byte.x4d; Byte.x07; Byte.x01].

(** What [warning_from_3] decodes to. *)
Definition from_3 : warning_t.t :=
  {| warning_t.timestamp := 1700000000000000;
     warning_t.vehicle_id := 3;
     warning_t.danger_detected := true;
     warning_t.description := "Motion detected" |}.

End Bench.

(** ** The wire of the message schema *)

Module Struct.

(** The values of a signed field of 32 bits and of one of 64 bits. *)
Definition int32 (n : Z) : bool := (- 2 ^ 31 <=? n) && (n <? 2 ^ 31).
Definition int64 (n : Z) : bool := (- 2 ^ 63 <=? n) && (n <? 2 ^ 63).

(** [struct.pack] of the two fields every message starts with, the
    timestamp first: the exception of the first field out of range. *)
Definition header_refused (timestamp vehicle_id : Z) : option string :=
  if negb (int64 timestamp) then Some "int too large to convert"
  else if negb (int32 vehicle_id) then
    Some "'i' format requires -2147483648 <= number <= 2147483647"
  else None.

(** A further field of 32 bits after the header. *)
Definition then_int32 (header : option string) (n : Z) : option string :=
  match header with
  | Some e => Some e
  | None =>
      if int32 n then None
      else Some "'i' format requires -2147483648 <= number <= 2147483647"
  end.

(** Modelled from the spec: the generated bindings of package [convoy]
    ([heartbeat_t], [warning_t], [mode_t], [status_t]) are not among the
    sources.  The specification gives every message a timestamp of type
    int64 and a vehicle id of type int32, and gives [mode] and
    [driving_mode] the type int32; [encode()] raises [struct.error] for a
    value outside the range of its type, and for nothing else.  The
    transport is up. *)
Definition wire : Wire :=
  {| heartbeat_refused := fun m =>
       header_refused (heartbeat_t.timestamp m) (heartbeat_t.vehicle_id m);
     warning_refused := fun m =>
       header_refused (warning_t.timestamp m) (warning_t.vehicle_id m);
     mode_refused := fun m =>
       then_int32
         (header_refused (mode_t.timestamp m) (mode_t.vehicle_id m))
         (mode_t.mode m);
     status_refused := fun m =>
       then_int32
         (header_refused (status_t.timestamp m) (status_t.vehicle_id m))
         (status_t.driving_mode m);
     publish_refused := fun _ _ _ => None |}.

End Struct.

(** ** A platform with the floats of CPython

    A [float] is a binary64 number of IEEE 754, and every conversion and
    operation rounds to nearest, ties to even.  The clock, [strftime] and
    the codecs of heartbeats, mode changes and status are those of the
    bench.  A warning carries its timestamp after the tag and the sender,
    in eight bytes, the most significant first. *)
Module Binary64.

Definition prec : Z := 53.
Definition emax : Z := 1024.

(** [float(n)] *)
Definition of_int (n : Z) : SpecFloat.spec_float :=
  SpecFloat.binary_normalize prec emax n 0 false.

(** [int(x)]: the integer part of a finite [x].  ([int] of an infinity or
    of a NaN raises; none comes from a timestamp of 64 bits.) *)
Definition to_int (x : SpecFloat.spec_float) : Z :=
  match x with
  | SpecFloat.S754_finite negative m e =>
      let magnitude :=
        if 0 <=? e then Z.pos m * 2 ^ e else Z.quot (Z.pos m) (2 ^ (- e)) in
      if negative then - magnitude else magnitude
  | _ => 0
  end.

Definition to_microseconds (t : SpecFloat.spec_float) : Z :=
  to_int (SpecFloat.SFmul prec emax t (of_int 1000000)).

Definition to_seconds (n : Z) : SpecFloat.spec_float :=
  SpecFloat.SFdiv prec emax (of_int n) (of_int 1000000).

(** A float is shown by its mantissa and exponent, not by the shortest
    decimal that reads back as it. *)
Definition str_float (t : SpecFloat.spec_float) : string :=
  match t with
  | SpecFloat.S754_finite negative m e =>
      (if negative then "-" else "") ++ str_int (Z.pos m) ++ "*2**"
      ++ str_int e
  | SpecFloat.S754_zero negative => if negative then "-0.0" else "0.0"
  | SpecFloat.S754_infinity negative => if negative then "-inf" else "inf"
  | SpecFloat.S754_nan => "nan"
  end.

Definition time_time (n : nat) : SpecFloat.spec_float :=
  of_int (1700000000 + Z.of_nat n).

(** The last [k] bytes of [n] in two's complement, the most significant
    first, and the number that bytes stand for. *)
Fixpoint to_bytes (k : nat) (n : Z) : bytes :=
  match k with
  | O => []
  | S k' => (to_bytes k' (n / 256) ++ [Bench.byte_of n])%list
  end.

Fixpoint from_bytes (data : bytes) (high : Z) : Z :=
  match data with
  | [] => high
  | b :: rest => from_bytes rest (high * 256 + Bench.int_of b)
  end.

Definition signed64 (n : Z) : Z := if n <? 2 ^ 63 then n else n - 2 ^ 64.

Definition warning_encode (m : warning_t.t) : bytes :=
  ([Byte.x57; Bench.byte_of (warning_t.vehicle_id m)]
   ++ to_bytes 8 (warning_t.timestamp m))%list.

Definition warning_decode (data : bytes) : outcome warning_t.t :=
  match data with
  | Byte.x57 :: v :: stamp =>
      if Nat.eqb (List.length stamp) 8 then
        Returned {| warning_t.timestamp := signed64 (from_bytes stamp 0);
                    warning_t.vehicle_id := Bench.int_of v;
                    warning_t.danger_detected := true;
                    warning_t.description := "Motion detected" |}
      else Raised "Decode error"
  | _ => Raised "Decode error"
  end.

Definition platform : Platform :=
  Build_Platform
    SpecFloat.spec_float to_microseconds to_seconds str_float time_time
    nat (fun n => n) Bench.strftime
    Bench.heartbeat_encode warning_encode Bench.mode_encode
    Bench.status_encode warning_decode Bench.mode_decode.

(** A warning from vehicle 3 stamped with the last microsecond a
    timestamp of 64 bits has, and what it decodes to. *)
Definition last_warning : bytes :=
  [Byte.x57; Byte.x03;
   Byte.x7f; Byte.xff; Byte.xff; Byte.xff;
   Byte.xff; Byte.xff; Byte.xff; Byte.xff].

Definition from_3 : warning_t.t :=
  {| warning_t.timestamp := 9223372036854775807;
     warning_t.vehicle_id := 3;
     warning_t.danger_detected := true;
     warning_t.description := "Motion detected" |}.

End Binary64.


(** ** Threads

    The methods above run from start to end.  The process runs them on
    three threads and the console, and the interpreter may pass from one
    thread to another between any two statements.  A [thread] is a method
    cut into the pieces between which that may happen: a piece runs in one
    go and gives what remains to run. *)
Local Unset Elimination Schemes.
Inductive thread : Type :=
| Done
| Atomic (piece : M thread).
Local Set Elimination Schemes.

(** A method in one piece. *)
Definition atomically (m : M unit) : thread :=
  Atomic (m ;; ret Done).

(** A thread run with nothing in between its pieces. *)
Fixpoint run (t : thread) : M unit :=
  match t with
  | Done => ret tt
  | Atomic piece =>
      fun w =>
        match piece w with
        | (Returned rest, w') => run rest w'
        | (Raised e, w') => (Raised e, w')
        end
  end.

(** [interleaves t1 t2 w w']: some order of the pieces of [t1] and [t2],
    each thread's pieces in its own order, takes [w] to [w'].  An
    exception ends the thread that raises it. *)
Inductive interleaves : thread -> thread -> World -> World -> Prop :=
| both_done w :
    interleaves Done Done w w
| left_runs piece rest t2 w w1 w' :
    piece w = (Returned rest, w1) ->
    interleaves rest t2 w1 w' ->
    interleaves (Atomic piece) t2 w w'
| left_raises piece e t2 w w1 w' :
    piece w = (Raised e, w1) ->
    interleaves Done t2 w1 w' ->
    interleaves (Atomic piece) t2 w w'
| right_runs t1 piece rest w w1 w' :
    piece w = (Returned rest, w1) ->
    interleaves t1 rest w1 w' ->
    interleaves t1 (Atomic piece) w w'
| right_raises t1 piece e w w1 w' :
    piece w = (Raised e, w1) ->
    interleaves t1 Done w1 w' ->
    interleaves t1 (Atomic piece) w w'.

(** The pieces of [t1] and [t2] run in a given order, [true] for a piece
    of [t1] and [false] for one of [t2]: what remains of the threads and
    the world they leave.  A thread that has ended passes its turn. *)
Fixpoint schedule (order : list bool) (t1 t2 : thread) (w : World)
  : thread * thread * World :=
  match order with
  | [] => (t1, t2, w)
  | true :: later =>
      match t1 with
      | Done => schedule later t1 t2 w
      | Atomic piece =>
          match piece w with
          | (Returned rest, w1) => schedule later rest t2 w1
          | (Raised _, w1) => schedule later Done t2 w1
          end
      end
  | false :: later =>
      match t2 with
      | Done => schedule later t1 t2 w
      | Atomic piece =>
          match piece w with
          | (Returned rest, w1) => schedule later t1 rest w1
          | (Raised _, w1) => schedule later t1 Done w1
          end
      end
  end.

(** ** The vocabulary of the properties *)

(** [keeps f m]: whatever [m] does, the part [f] of the object is after it
    what it was before. *)
Definition keeps {A B} (f : MotionDetector -> A) (m : M B) : Prop :=
  forall w, f (self (snd (m w))) = f (self w).

(** The part [f] does not look at the log. *)
Definition blind_to_log {A} (f : MotionDetector -> A) : Prop :=
  forall v o, f (with_log_messages v o) = f o.

(** The part [f] does not look at the brake lights. *)
Definition blind_to_brake {A} (f : MotionDetector -> A) : Prop :=
  forall v o, f (with_brake_lights_on v o) = f o.

(** The part [f] does not look at the driving mode. *)
Definition blind_to_mode {A} (f : MotionDetector -> A) : Prop :=
  forall v o, f (with_driving_mode v o) = f o.

(** [preserves I m]: if the object satisfies [I] before [m], it does
    after. *)
Definition preserves {B} (I : MotionDetector -> Prop) (m : M B) : Prop :=
  forall w, I (self w) -> I (self (snd (m w))).

(** The driving mode is 0, 1 or 2. *)
Definition valid_mode (o : MotionDetector) : Prop :=
  In (driving_mode o) [0; 1; 2].


Section Vocabulary.
Context {P : Platform}.
#[local] Existing Instance lossless.

(** A turn of the heartbeat loop in two pieces: the test of the driving
    mode, and what the test guards together with the sleep. *)
Definition send_heartbeat_tick_thread : thread :=
  Atomic
    (mode <- get driving_mode ;;
     ret (if int_in mode [1; 2] then
            atomically
              (t <- time_now ;;
               let current_time := to_microseconds t in
               vid <- get vehicle_id ;;
               let heartbeat :=
                 {| heartbeat_t.timestamp := current_time;
                    heartbeat_t.vehicle_id := vid |} in
               data <- encode heartbeat_refused heartbeat_encode heartbeat ;;
               lcm_publish "HEARTBEAT" data ;;
               vid' <- get vehicle_id ;;
               log_event ("Heartbeat sent from vehicle " ++ str_int vid'
                          ++ ": " ++ str_int current_time) ;;
               time_sleep)
          else atomically time_sleep)).

(** The claim about synchronisation as the specification words it, for a
    turn of the heartbeat loop beside a change of mode: whatever the
    order in which the threads run, the world is left as by the turn and
    then the change, or as by the change and then the turn.  The change is
    taken in one piece, which leaves out orders the interpreter allows and
    adds none. *)
Definition synchronised (w : World) (mode : Z) : Prop :=
  forall w',
    interleaves send_heartbeat_tick_thread
      (atomically (set_driving_mode mode)) w w' ->
    w' = exec (send_heartbeat_tick ;; set_driving_mode mode) w \/
    w' = exec (set_driving_mode mode ;; send_heartbeat_tick) w.

(** What is published among some events. *)
Definition published (delta : list (event * MotionDetector)) : list event :=
  filter is_publish (map fst delta).

(** The claim about the brake actuator as the specification words it:
    a request for the state the lights are in changes nothing; any other
    request flips the lights and appends to the event log, which is
    [log_messages], one entry, which says BRAKE LIGHTS ON or BRAKE LIGHTS
    OFF. *)
Definition brake_edge_logged (w : World) (on : bool) : Prop :=
  let w' := exec (if on then turn_on_brake_lights
                  else turn_off_brake_lights) w in
  if Bool.eqb on (brake_lights_on (self w)) then w' = w
  else
    brake_lights_on (self w') = on /\
    exists entry,
      log_messages (self w') = (log_messages (self w) ++ [entry])%list /\
      contains (if on then "BRAKE LIGHTS ON" else "BRAKE LIGHTS OFF")
        entry = true.

(** [cv2.waitKey(1) & 0xFF == ord('q')] for the key code [k]. *)
Definition pressed_q (k : Z) : bool := Z.land k 255 =? 113.

(** The log entry [log_event] writes for [message] at the [n]-th clock
    reading after those of [w]. *)
Definition entry_at (w : World) (n : nat) (message : string) : string :=
  "[" ++ drop_last 3
           (strftime (datetime_now (n + clock w)) "%Y-%m-%d %H:%M:%S.%f")
  ++ "] " ++ message.

(** The line the brake lights print at the [n]-th clock reading after
    those of [w]. *)
Definition brake_line_at (w : World) (n : nat) (state : string) : string :=
  "[" ++ strftime (datetime_now (n + clock w)) "%H:%M:%S"
  ++ "] BRAKE LIGHTS " ++ state.

(** Three frames read well, with their samples and key codes. *)
Definition samples (s1 s2 s3 : bool) (k1 k2 k3 : Z) : list (option frame) :=
  [Some {| motion := s1; key := k1 |};
   Some {| motion := s2; key := k2 |};
   Some {| motion := s3; key := k3 |}].

(** The claim about the samples true, true, false in mode 0 as the
    specification words it: the event log gains one entry for the lights
    going on and one for the lights going off, and no warning is
    published. *)
Definition single_mode_edges_logged (w : World) : Prop :=
  let w' := exec (process_frame (samples true true false (-1) (-1) (-1))) w in
  exists entries delta,
    log_messages (self w') = (log_messages (self w) ++ entries)%list /\
    trace w' = (trace w ++ delta)%list /\
    List.length (filter (contains "BRAKE LIGHTS ON") entries) = 1%nat /\
    List.length (filter (contains "BRAKE LIGHTS OFF") entries) = 1%nat /\
    filter (is_publish_on "WARNING") (map fst delta) = [].

End Vocabulary.

(** ** The vocabulary of the further properties *)

(** [returns m]: [m] raises no exception, whatever the world. *)
Definition returns {B} (m : M B) : Prop :=
  forall w, exists b, fst (m w) = Returned b.

(** The number of publications on [channel] among some events. *)
Definition count_on (channel : string) (delta : list (event * MotionDetector))
  : nat :=
  List.length (filter (is_publish_on channel) (map fst delta)).

(** The fields of the object that [__init__] takes from its caller. *)
Definition identity (o : MotionDetector) : Z * Z * Z * Z :=
  (camera_id o, threshold o, min_area o, vehicle_id o).

(** The log of the object starts with [base]. *)
Definition extends_log (base : list string) (o : MotionDetector) : Prop :=
  exists later, log_messages o = (base ++ later)%list.

(** A frame that is read well and at which [q] is not pressed. *)
Definition clear_frame (f : option frame) : Prop :=
  exists fr, f = Some fr /\ pressed_q (key fr) = false.

(** A clear frame in which something moves. *)
Definition moving_frame (f : option frame) : Prop :=
  exists fr, f = Some fr /\ motion fr = true /\ pressed_q (key fr) = false.

(** A frame at which the sensing loop ends: a failed read, or [q]
    pressed. *)
Definition last_frame (f : option frame) : Prop :=
  f = None \/ exists fr, f = Some fr /\ pressed_q (key fr) = true.

(** [stable I]: no write of a field breaks [I], as long as the log is
    written by appending to it. *)
Definition stable (I : MotionDetector -> Prop) : Prop :=
  (forall v o, I o -> I (with_driving_mode v o)) /\
  (forall v o, I o -> I (with_motion_detected v o)) /\
  (forall v o, I o -> I (with_brake_lights_on v o)) /\
  (forall v o, I o -> I (with_running v o)) /\
  (forall e o, I o -> I (with_log_messages (log_messages o ++ [e])%list o)).

Section FurtherVocabulary.
Context {P : Platform}.

(** The world after [log_event message] in [w]: the log has one more
    entry, which is printed, and the clock has been read once. *)
Definition logged (w : World) (message : string) : World :=
  let o := with_log_messages
             (log_messages (self w) ++ [entry_at w 0 message])%list (self w) in
  {| self := o;
     trace := (trace w ++ [(Print (entry_at w 0 message), o)])%list;
     clock := S (clock w) |}.

End FurtherVocabulary.

Section RelayVocabulary.
Context {P : Platform} {W : Wire}.

(** The warning vehicle [vid] builds to relay [msg]: the timestamp is
    that of [msg] taken to seconds and back. *)
Definition relay (vid : Z) (msg : warning_t.t) : warning_t.t :=
  {| warning_t.timestamp :=
       to_microseconds (to_seconds (warning_t.timestamp msg));
     warning_t.vehicle_id := vid;
     warning_t.danger_detected := true;
     warning_t.description := "Warning relayed" |}.

(** The wire lets the warning [m] through: its [encode()] raises nothing,
    and neither does the transport, whenever it is asked. *)
Definition goes_through (m : warning_t.t) : Prop :=
  warning_refused m = None /\
  forall w, publish_refused w "WARNING" (warning_encode m) = None.

(** An arrival of a warning that decodes, was sent by a vehicle other
    than [vid], and whose relay by [vid] the wire lets through. *)
Definition relayable (vid : Z) (a : option (string * bytes)) : Prop :=
  exists data msg,
    a = Some ("WARNING", data) /\
    warning_decode data = Returned msg /\
    warning_t.vehicle_id msg <> vid /\
    goes_through (relay vid msg).

(** The heartbeat a turn of the heartbeat loop builds in [w], and the
    mode change [set_driving_mode mode] builds in [w]. *)
Definition heartbeat_of (w : World) : heartbeat_t.t :=
  {| heartbeat_t.timestamp := to_microseconds (time_time (clock w));
     heartbeat_t.vehicle_id := vehicle_id (self w) |}.

Definition mode_change_of (w : World) (mode : Z) : mode_t.t :=
  {| mode_t.timestamp := to_microseconds (time_time (clock w));
     mode_t.vehicle_id := vehicle_id (self w);
     mode_t.mode := mode;
     mode_t.mode_description :=
       match getitem mode_names mode with
       | Some name => name
       | None => ""
       end |}.

End RelayVocabulary.

(** ** Further worlds and inputs on the bench *)

Module Trial.
#[local] Existing Instance lossless.

(** Vehicle 7 with something moving in its last sample. *)
Definition sensing (mode : Z) (lit : bool) : World :=
  boot (with_motion_detected true (self (Bench.vehicle mode lit))).

(** Vehicle 7 in mode 1 after [stop]. *)
Definition stopped : World :=
  exec stop (Bench.vehicle 1 false).

(** A frame in which something moves, one in which nothing does, no key
    pressed at either. *)
Definition moving : option frame := Some {| motion := true; key := -1 |}.
Definition still : option frame := Some {| motion := false; key := -1 |}.

(** A mode change from vehicle 3 to mode 1, and what it decodes to. *)
Definition mode_from_3 : bytes := [Byte.x4d; Byte.x03; Byte.x01].
Definition mode_3 : mode_t.t :=
  {| mode_t.timestamp := 1700000000000000;
     mode_t.vehicle_id := 3;
     mode_t.mode := 1;
     mode_t.mode_description := "Head in Convoy" |}.

(** Bytes that decode as nothing. *)
Definition garbled : bytes := [].

(** The arrival of a warning from vehicle 3. *)
Definition arrival_from_3 : option (string * bytes) :=
  Some ("WARNING", Bench.warning_from_3).

End Trial.

(** * Proofs *)

(** Running a method on a world whose parts are named: unfold the method
    and the monad and compute. *)
Ltac unfold_monad :=
  unfold exec, result, log_event, send_warning_message,
    now_strftime, time_now, index, time_sleep, print, encode, lcm_publish,
    lift;
  unfold bind, ret, raise, try_except, try_finally, get, set, emit,
    read_clock.

Ltac open_world w :=
  let o := fresh "o" in
  let tr := fresh "tr" in
  let ck := fresh "ck" in
  destruct w as [o tr ck]; destruct o; cbn [self trace clock
    camera_id threshold min_area vehicle_id driving_mode motion_detected
    brake_lights_on running log_messages] in *.

(** * What a computation leaves alone *)

Section Keeps.
Context {W : Wire} {A : Type} (f : MotionDetector -> A).

Lemma keeps_ret {B} (b : B) : keeps f (ret b).
Proof. intros w. reflexivity. Qed.

Lemma keeps_raise {B} (e : string) : keeps f (@raise B e).
Proof. intros w. reflexivity. Qed.

Lemma keeps_lift {B} (r : outcome B) : keeps f (lift r).
Proof. intros w. reflexivity. Qed.

Lemma keeps_get {B} (g : MotionDetector -> B) : keeps f (get g).
Proof. intros w. reflexivity. Qed.

Lemma keeps_emit (e : event) : keeps f (emit e).
Proof. intros w. reflexivity. Qed.

Lemma keeps_print (line : string) : keeps f (print line).
Proof. apply keeps_emit. Qed.

Lemma keeps_lcm_publish (channel : string) (data : bytes) :
  keeps f (lcm_publish channel data).
Proof.
  intros w. unfold lcm_publish.
  destruct (publish_refused w channel data); reflexivity.
Qed.

Lemma keeps_encode {B} (refused : B -> option string) (layout : B -> bytes)
    (message : B) :
  keeps f (encode refused layout message).
Proof.
  unfold encode. destruct (refused message); [apply keeps_raise | apply keeps_ret].
Qed.

Lemma keeps_read_clock : keeps f read_clock.
Proof. intros w. reflexivity. Qed.

Lemma keeps_time_sleep : keeps f time_sleep.
Proof. intros w. reflexivity. Qed.

Lemma keeps_set (update : MotionDetector -> MotionDetector) :
  (forall o, f (update o) = f o) -> keeps f (set update).
Proof. intros H w. apply H. Qed.

Lemma keeps_bind {B C} (m : M B) (k : B -> M C) :
  keeps f m -> (forall b, keeps f (k b)) -> keeps f (bind m k).
Proof.
  intros Hm Hk w. unfold bind.
  specialize (Hm w). destruct (m w) as [[b | e] w1]; cbn in *.
  - rewrite Hk. exact Hm.
  - exact Hm.
Qed.

Lemma keeps_try_except {B} (body : M B) (handler : string -> M B) :
  keeps f body -> (forall e, keeps f (handler e)) ->
  keeps f (try_except body handler).
Proof.
  intros Hb Hh w. unfold try_except.
  specialize (Hb w). destruct (body w) as [[b | e] w1]; cbn in *.
  - exact Hb.
  - rewrite Hh. exact Hb.
Qed.

Lemma keeps_try_finally {B} (body : M B) (final : M unit) :
  keeps f body -> keeps f final -> keeps f (try_finally body final).
Proof.
  intros Hb Hf w. unfold try_finally.
  specialize (Hb w). destruct (body w) as [r w1]; cbn in *.
  specialize (Hf w1). destruct (final w1) as [[u | e] w2]; cbn in *;
    congruence.
Qed.

Lemma keeps_index {B} (l : list B) (i : Z) : keeps f (index l i).
Proof.
  unfold index. destruct (getitem l i); [apply keeps_ret | apply keeps_raise].
Qed.

Lemma keeps_print_each (lines : list string) : keeps f (print_each lines).
Proof.
  induction lines as [| line rest IH]; cbn [print_each].
  - apply keeps_ret.
  - apply keeps_bind; [apply keeps_print | intros _; exact IH].
Qed.

End Keeps.

(** Proving [keeps f m] for a method [m]: follow the structure of [m],
    splitting on the tests it makes. *)
Ltac keeps_step :=
  match goal with
  | |- keeps _ (bind _ _) => apply keeps_bind; [| intros ?]
  | |- keeps _ (try_except _ _) => apply keeps_try_except; [| intros ?]
  | |- keeps _ (try_finally _ _) => apply keeps_try_finally
  | |- keeps _ (ret _) => apply keeps_ret
  | |- keeps _ (raise _) => apply keeps_raise
  | |- keeps _ (lift _) => apply keeps_lift
  | |- keeps _ (get _) => apply keeps_get
  | |- keeps _ (print _) => apply keeps_print
  | |- keeps _ (lcm_publish _ _) => apply keeps_lcm_publish
  | |- keeps _ (encode _ _ _) => apply keeps_encode
  | |- keeps _ read_clock => apply keeps_read_clock
  | |- keeps _ time_sleep => apply keeps_time_sleep
  | |- keeps _ (index _ _) => apply keeps_index
  | |- keeps _ (print_each _) => apply keeps_print_each
  | |- keeps _ (set _) => apply keeps_set; intros []; reflexivity
  | |- keeps _ (if ?b then _ else _) => destruct b
  | |- keeps _ (match ?x with _ => _ end) => destruct x
  | H : keeps ?f ?m |- keeps ?f ?m => exact H
  end.

Create HintDb keeps.

(** The lemmas on methods proved so far are in the database [keeps]. *)
Ltac keeps_all := repeat first [keeps_step | solve [auto with keeps]].

Section KeepsMethods.
Context {P : Platform} {W : Wire} {A : Type} (f : MotionDetector -> A).
Hypothesis Hlog : blind_to_log f.

Lemma keeps_log_event (message : string) : keeps f (log_event message).
Proof.
  unfold log_event, now_strftime.
  apply keeps_bind; [keeps_all | intros stamp].
  apply keeps_bind; [| intros ?; keeps_all].
  apply keeps_set. intros o. apply Hlog.
Qed.
#[local] Hint Resolve keeps_log_event : keeps.

Lemma keeps_send_warning_message (t : float) (description : string) :
  keeps f (send_warning_message t description).
Proof. unfold send_warning_message. keeps_all. Qed.
#[local] Hint Resolve keeps_send_warning_message : keeps.

Lemma keeps_send_status_message : keeps f send_status_message.
Proof. unfold send_status_message, time_now. keeps_all. Qed.

Lemma keeps_show_status : keeps f show_status.
Proof. unfold show_status. keeps_all. Qed.

Lemma keeps_show_logs : keeps f show_logs.
Proof. unfold show_logs. keeps_all. Qed.

Lemma keeps__handle_mode_message (channel : string) (data : bytes) :
  keeps f (_handle_mode_message channel data).
Proof. unfold _handle_mode_message. keeps_all. Qed.

Lemma keeps_send_heartbeat_tick : keeps f send_heartbeat_tick.
Proof. unfold send_heartbeat_tick, time_now. keeps_all. Qed.

Lemma keeps_send_heartbeat (turns : nat) : keeps f (send_heartbeat turns).
Proof.
  induction turns as [| turns IH]; cbn [send_heartbeat]; [keeps_all|].
  apply keeps_bind; [keeps_all | intros go].
  destruct go; [| keeps_all].
  apply keeps_bind; [apply keeps_send_heartbeat_tick | intros _; exact IH].
Qed.

Section Brake.
Hypothesis Hbrake : blind_to_brake f.

Lemma keeps_turn_on_brake_lights : keeps f turn_on_brake_lights.
Proof.
  unfold turn_on_brake_lights, now_strftime.
  apply keeps_bind; [keeps_all | intros lit].
  destruct (negb lit); [| keeps_all].
  apply keeps_bind; [apply keeps_set; intros o; apply Hbrake | intros ?].
  keeps_all.
Qed.

Lemma keeps_turn_off_brake_lights : keeps f turn_off_brake_lights.
Proof.
  unfold turn_off_brake_lights, now_strftime.
  apply keeps_bind; [keeps_all | intros lit].
  destruct lit; [| keeps_all].
  apply keeps_bind; [apply keeps_set; intros o; apply Hbrake | intros ?].
  keeps_all.
Qed.
#[local] Hint Resolve keeps_turn_on_brake_lights
  keeps_turn_off_brake_lights : keeps.

Lemma keeps_handle_warning_message (t : float) :
  keeps f (handle_warning_message t).
Proof. unfold handle_warning_message. keeps_all. Qed.
#[local] Hint Resolve keeps_handle_warning_message : keeps.

Lemma keeps__handle_warning_message (channel : string) (data : bytes) :
  keeps f (_handle_warning_message channel data).
Proof. unfold _handle_warning_message. keeps_all. Qed.

Lemma keeps_lcm_handle_timeout (pending : option (string * bytes)) :
  keeps f (lcm_handle_timeout pending).
Proof.
  unfold lcm_handle_timeout.
  destruct pending as [[channel data] |]; [| keeps_all].
  destruct (String.eqb channel "WARNING");
    [apply keeps__handle_warning_message |].
  destruct (String.eqb channel "MODE");
    [apply keeps__handle_mode_message | keeps_all].
Qed.

Lemma keeps_handle_driving_mode : keeps f handle_driving_mode.
Proof. unfold handle_driving_mode, time_now. keeps_all. Qed.

End Brake.

Section Mode.
Hypothesis Hmode : blind_to_mode f.

Lemma keeps_set_driving_mode (mode : Z) : keeps f (set_driving_mode mode).
Proof.
  unfold set_driving_mode, time_now.
  destruct (int_in mode [0; 1; 2]); [| keeps_all].
  apply keeps_bind; [keeps_all | intros old].
  apply keeps_bind; [apply keeps_set; intros o; apply Hmode | intros ?].
  keeps_all.
Qed.

Lemma keeps_command (cmd : string) : keeps f (command cmd).
Proof.
  unfold command, time_now.
  repeat match goal with
         | |- keeps _ (if ?b then _ else _) => destruct b
         end;
    auto using keeps_set_driving_mode, keeps_show_status,
      keeps_show_logs, keeps_send_status_message;
    keeps_all.
Qed.

End Mode.

End KeepsMethods.

(** * What a computation maintains *)

Section Preserves.
Context (I : MotionDetector -> Prop).

Lemma preserves_ret {B} (b : B) : preserves I (ret b).
Proof. intros w H. exact H. Qed.

Lemma preserves_raise {B} (e : string) : preserves I (@raise B e).
Proof. intros w H. exact H. Qed.

Lemma preserves_bind {B C} (m : M B) (k : B -> M C) :
  preserves I m -> (forall b, preserves I (k b)) -> preserves I (bind m k).
Proof.
  intros Hm Hk w H. unfold bind.
  specialize (Hm w H). destruct (m w) as [[b | e] w1]; cbn in *.
  - apply Hk, Hm.
  - exact Hm.
Qed.

Lemma preserves_try_except {B} (body : M B) (handler : string -> M B) :
  preserves I body -> (forall e, preserves I (handler e)) ->
  preserves I (try_except body handler).
Proof.
  intros Hb Hh w H. unfold try_except.
  specialize (Hb w H). destruct (body w) as [[b | e] w1]; cbn in *.
  - exact Hb.
  - apply Hh, Hb.
Qed.

Lemma preserves_try_finally {B} (body : M B) (final : M unit) :
  preserves I body -> preserves I final ->
  preserves I (try_finally body final).
Proof.
  intros Hb Hf w H. unfold try_finally.
  specialize (Hb w H). destruct (body w) as [r w1]; cbn in *.
  specialize (Hf w1 Hb). destruct (final w1) as [[u | e] w2]; exact Hf.
Qed.

End Preserves.

Lemma preserves_keeps {A B} (f : MotionDetector -> A) (Q : A -> Prop)
    (m : M B) :
  keeps f m -> preserves (fun o => Q (f o)) m.
Proof. intros Hk w H. rewrite Hk. exact H. Qed.

(** ** The driving mode is 0, 1 or 2 *)

Lemma int_in_modes (mode : Z) :
  int_in mode [0; 1; 2] = true <-> In mode [0; 1; 2].
Proof.
  unfold int_in. rewrite existsb_exists. split.
  - intros [x [Hx E]]. apply Z.eqb_eq in E. subst. exact Hx.
  - intros H. exists mode. split; [exact H | apply Z.eqb_refl].
Qed.

Lemma blind_log_mode : blind_to_log driving_mode.
Proof. intros v []; reflexivity. Qed.

Lemma blind_brake_mode : blind_to_brake driving_mode.
Proof. intros v []; reflexivity. Qed.

Section ValidMode.
Context {P : Platform}.
#[local] Existing Instance lossless.

(** After [set_driving_mode mode] the mode is [mode] if that is 0, 1 or
    2, and what it was if not. *)
Lemma set_driving_mode_sets (w : World) (mode : Z) :
  driving_mode (self (exec (set_driving_mode mode) w)) =
    if int_in mode [0; 1; 2] then mode else driving_mode (self w).
Proof.
  unfold exec, set_driving_mode.
  destruct (int_in mode [0; 1; 2]) eqn:E; [| reflexivity].
  apply int_in_modes in E. cbn in E.
  destruct E as [<- | [<- | [<- | []]]]; reflexivity.
Qed.

Lemma set_driving_mode_returns (w : World) (mode : Z) :
  result (set_driving_mode mode) w = Returned tt.
Proof.
  unfold result, set_driving_mode.
  destruct (int_in mode [0; 1; 2]) eqn:E; [| reflexivity].
  apply int_in_modes in E. cbn in E.
  destruct E as [<- | [<- | [<- | []]]]; reflexivity.
Qed.

Lemma show_status_returns (w : World) :
  valid_mode (self w) -> result show_status w = Returned tt.
Proof.
  unfold valid_mode. open_world w. cbn.
  intros [<- | [<- | [<- | []]]]; reflexivity.
Qed.

Lemma valid_set_driving_mode (mode : Z) :
  preserves valid_mode (set_driving_mode mode).
Proof.
  intros w H. unfold valid_mode.
  change (snd (set_driving_mode mode w)) with (exec (set_driving_mode mode) w).
  rewrite set_driving_mode_sets.
  destruct (int_in mode [0; 1; 2]) eqn:E; [| exact H].
  apply int_in_modes, E.
Qed.

Lemma valid_keeps {B} (m : M B) :
  keeps driving_mode m -> preserves valid_mode m.
Proof. apply (preserves_keeps driving_mode (fun z => In z [0; 1; 2])). Qed.

Lemma valid_command (cmd : string) : preserves valid_mode (command cmd).
Proof.
  unfold command.
  repeat match goal with
         | |- preserves _ (if ?b then _ else _) => destruct b
         end;
    try apply valid_set_driving_mode; apply valid_keeps.
  - apply keeps_show_status.
  - apply keeps_show_logs.
  - apply keeps_send_status_message, blind_log_mode.
  - unfold time_now. apply keeps_bind; [keeps_all | intros t].
    apply keeps_send_warning_message, blind_log_mode.
  - keeps_all.
Qed.

Lemma valid_sense (b : bool) :
  preserves valid_mode
    (set (with_motion_detected b) ;; handle_driving_mode)%monad.
Proof.
  apply valid_keeps. apply keeps_bind; [keeps_all | intros _].
  apply keeps_handle_driving_mode; [apply blind_log_mode | apply blind_brake_mode].
Qed.

Lemma valid_perform (a : action) : preserves valid_mode (perform a).
Proof.
  destruct a as [f | | channel data | cmd | mode | | ]; cbn [perform].
  - apply valid_sense.
  - apply valid_keeps, keeps_send_heartbeat_tick, blind_log_mode.
  - apply valid_keeps, keeps_lcm_handle_timeout;
      [apply blind_log_mode | apply blind_brake_mode].
  - apply valid_command.
  - apply valid_set_driving_mode.
  - apply valid_keeps. keeps_all.
  - apply valid_keeps. unfold stop. keeps_all.
Qed.

Lemma valid_reachable (w : World) : reachable w -> valid_mode (self w).
Proof.
  induction 1 as [camera threshold min_area vehicle_id | w a Hw IH].
  - left. reflexivity.
  - apply valid_perform, IH.
Qed.

(** The loops of the three threads and of the console. *)

Lemma valid_process_frame (frames : list (option frame)) :
  preserves valid_mode (process_frame frames).
Proof.
  induction frames as [| f rest IH]; cbn [process_frame].
  - apply preserves_ret.
  - apply preserves_bind; [apply valid_keeps; keeps_all | intros go].
    destruct go; [| apply preserves_ret].
    destruct f as [fr |]; [| apply valid_keeps; keeps_all].
    apply preserves_bind; [apply valid_keeps; keeps_all | intros _].
    apply preserves_bind; [| intros _].
    + apply valid_keeps, keeps_handle_driving_mode;
        [apply blind_log_mode | apply blind_brake_mode].
    + destruct (Z.land (key fr) 255 =? 113); [apply preserves_ret |].
      apply preserves_bind; [apply preserves_ret | intros _; exact IH].
Qed.

Lemma valid_send_heartbeat (turns : nat) :
  preserves valid_mode (send_heartbeat turns).
Proof. apply valid_keeps, keeps_send_heartbeat, blind_log_mode. Qed.

Lemma valid__lcm_handler_loop (arrivals : list (option (string * bytes))) :
  preserves valid_mode (_lcm_handler_loop arrivals).
Proof.
  induction arrivals as [| a rest IH]; cbn [_lcm_handler_loop].
  - apply preserves_ret.
  - apply preserves_bind; [apply valid_keeps; keeps_all | intros go].
    destruct go; [| apply preserves_ret].
    apply preserves_bind; [| intros _; exact IH].
    apply valid_keeps, keeps_try_except.
    + apply keeps_lcm_handle_timeout;
        [apply blind_log_mode | apply blind_brake_mode].
    + intros e. apply keeps_bind; [keeps_all | intros go'].
      destruct go'; [apply keeps_log_event, blind_log_mode | keeps_all].
Qed.

Lemma valid_command_loop (input : list console) :
  preserves valid_mode (command_loop input).
Proof.
  induction input as [| c rest IH]; cbn [command_loop].
  - apply valid_keeps. keeps_all.
  - apply preserves_bind; [apply valid_keeps; keeps_all | intros go].
    destruct go; [| apply preserves_ret].
    destruct c as [cmd |]; [| apply preserves_ret].
    destruct (String.eqb cmd "q"); [apply preserves_ret |].
    apply preserves_bind; [apply valid_command | intros _; exact IH].
Qed.

Lemma valid_start (opened : bool) (input : list console) :
  preserves valid_mode (start opened input).
Proof.
  unfold start. apply preserves_try_finally.
  - apply preserves_try_except; [| intros e; apply valid_keeps; keeps_all].
    apply preserves_bind;
      [apply valid_keeps; unfold initialize_camera; keeps_all | intros _].
    repeat (apply preserves_bind; [apply valid_keeps; keeps_all | intros ?]).
    apply valid_command_loop.
  - apply valid_keeps. unfold stop. keeps_all.
Qed.

End ValidMode.

(** * Threads *)

(** An order that runs both threads to their ends is an interleaving. *)
Lemma schedule_interleaves (order : list bool) :
  forall t1 t2 w w',
    schedule order t1 t2 w = (Done, Done, w') -> interleaves t1 t2 w w'.
Proof.
  induction order as [| first later IH]; intros t1 t2 w w' H.
  - cbn in H. inversion H; subst. apply both_done.
  - destruct first; cbn [schedule] in H.
    + destruct t1 as [| piece]; [apply IH, H |].
      destruct (piece w) as [[rest | e] w1] eqn:E.
      * eapply left_runs; [exact E | apply IH, H].
      * eapply left_raises; [exact E | apply IH, H].
    + destruct t2 as [| piece]; [apply IH, H |].
      destruct (piece w) as [[rest | e] w1] eqn:E.
      * eapply right_runs; [exact E | apply IH, H].
      * eapply right_raises; [exact E | apply IH, H].
Qed.

(** * The claims *)

(** C1.  A member does not relay every warning of another vehicle.
    Vehicle 7 in MEMBER mode (2), on the platform with the floats of
    CPython and the wire of the schema, receives from vehicle 3 a warning
    stamped 9223372036854775807, the last timestamp of 64 bits.  It logs
    the receipt and turns its brake lights on.  The timestamp taken to
    seconds and back is 9223372036854775808, which is no timestamp of 64
    bits: [encode()] of the relay raises, the handler logs the exception
    and returns, and nothing is published. *)
Theorem C1_relay_lost_at_last_timestamp :
  let w := Bench.vehicle 2 false in
  let handler :=
    @_handle_warning_message Binary64.platform Struct.wire "WARNING"
      Binary64.last_warning in
  @warning_decode Binary64.platform Binary64.last_warning
    = Returned Binary64.from_3 /\
  warning_t.vehicle_id Binary64.from_3 <> vehicle_id (self w) /\
  Struct.int64 (warning_t.timestamp Binary64.from_3) = true /\
  driving_mode (self w) = 2 /\
  warning_t.timestamp
    (@relay Binary64.platform (vehicle_id (self w)) Binary64.from_3)
    = 2 ^ 63 /\
  result handler w = Returned tt /\
  brake_lights_on (self (exec handler w)) = true /\
  log_messages (self (exec handler w)) =
    ["[2025-01-01 12:00:00.000] Received warning from vehicle 3: Motion detected";
     "[2025-01-01 12:00:02.000] Error handling warning message: int too large to convert"] /\
  exists delta,
    trace (exec handler w) = (trace w ++ delta)%list /\
    published delta = [].
Proof.
  cbv zeta.
  split; [reflexivity |]. split; [cbn; lia |].
  split; [reflexivity |]. split; [reflexivity |].
  split; [vm_compute; reflexivity |]. split; [vm_compute; reflexivity |].
  split; [vm_compute; reflexivity |]. split; [vm_compute; reflexivity |].
  exists (trace
            (exec (@_handle_warning_message Binary64.platform Struct.wire
                     "WARNING" Binary64.last_warning)
               (Bench.vehicle 2 false))).
  split; vm_compute; reflexivity.
Qed.

(** The claims that follow are about what one vehicle does with its own
    state and its own sends.  They are stated on the wire [lossless]:
    the vehicle id is one of 32 bits, the clock gives a timestamp of 64
    bits and the transport is up, so that nothing is refused. *)
Section Claims.
Context {P : Platform}.
#[local] Existing Instance lossless.

Lemma mode_name_0 : getitem mode_names 0 = Some "Single Vehicle".
Proof. reflexivity. Qed.

Lemma mode_name_1 : getitem mode_names 1 = Some "Head in Convoy".
Proof. reflexivity. Qed.

Lemma mode_name_2 : getitem mode_names 2 = Some "In Convoy".
Proof. reflexivity. Qed.

(** C2.  [set_driving_mode m] with [m] one of 0, 1, 2 returns with the
    driving mode equal to [m].  The first thing it does that anyone can
    see is to publish on channel MODE, at a moment when the object
    differs from the one it started with in the driving mode alone, which
    is [m] already; it publishes nothing else.  The message carries [m],
    the vehicle's id and the description the table gives for [m]. *)
Theorem C2_set_mode_publishes_once (w : World) (m : Z) :
  m = 0 \/ m = 1 \/ m = 2 ->
  let w' := exec (set_driving_mode m) w in
  result (set_driving_mode m) w = Returned tt /\
  driving_mode (self w') = m /\
  exists msg rest,
    trace w' =
      (trace w
       ++ (Publish "MODE" (mode_encode msg), with_driving_mode m (self w))
       :: rest)%list /\
    published rest = [] /\
    mode_t.mode msg = m /\
    mode_t.vehicle_id msg = vehicle_id (self w) /\
    getitem mode_names m = Some (mode_t.mode_description msg) /\
    (m = 0 -> mode_t.mode_description msg = "Single Vehicle") /\
    (m = 1 -> mode_t.mode_description msg = "Head in Convoy") /\
    (m = 2 -> mode_t.mode_description msg = "In Convoy").
Proof.
  intros Hm. open_world w.
  unfold set_driving_mode. unfold_monad.
  destruct Hm as [-> | [-> | ->]];
    change (int_in _ [0; 1; 2]) with true; cbv iota;
    rewrite ?mode_name_0, ?mode_name_1, ?mode_name_2; cbn;
    (split; [reflexivity|]; split; [reflexivity|];
     eexists; eexists; split;
     [rewrite <- !app_assoc; cbn; reflexivity
     | cbn; repeat split; try reflexivity; intros; lia ]).
Qed.

(** C3.  [set_driving_mode] with a value other than 0, 1, 2 returns
    normally and has printed the line "Invalid driving mode: ..." and
    done nothing else: the object, with its driving mode and its log, is
    the one it started with, and nothing was published. *)
Theorem C3_invalid_mode_rejected (w : World) (mode : Z) :
  mode <> 0 -> mode <> 1 -> mode <> 2 ->
  set_driving_mode mode w =
    (Returned tt,
     {| self := self w;
        trace := (trace w
                  ++ [(Print ("Invalid driving mode: " ++ str_int mode),
                       self w)])%list;
        clock := clock w |}).
Proof.
  intros H0 H1 H2.
  unfold set_driving_mode, int_in, existsb.
  apply Z.eqb_neq in H0, H1, H2. rewrite H0, H1, H2. reflexivity.
Qed.

(** C4.  A warning or a mode change that carries the vehicle's own id is
    dropped: the handler returns and the world is the one it started
    with, so no field of the object changed (the brake lights and the log
    among them) and nothing was published or printed. *)
Theorem C4_own_messages_dropped (w : World) (channel : string) (data : bytes) :
  (forall msg,
      warning_decode data = Returned msg ->
      warning_t.vehicle_id msg = vehicle_id (self w) ->
      _handle_warning_message channel data w = (Returned tt, w)) /\
  (forall msg,
      mode_decode data = Returned msg ->
      mode_t.vehicle_id msg = vehicle_id (self w) ->
      _handle_mode_message channel data w = (Returned tt, w)).
Proof.
  split; intros msg Hdec Hown.
  - unfold _handle_warning_message. unfold_monad.
    rewrite Hdec, Hown, Z.eqb_refl. reflexivity.
  - unfold _handle_mode_message. unfold_monad.
    rewrite Hdec, Hown, Z.eqb_refl. reflexivity.
Qed.

(** C5.  A turn of the heartbeat loop returns; when the driving mode is
    1 or 2 it has published one message and no more, on channel
    HEARTBEAT, with the vehicle's id and the clock reading in
    microseconds; in every other mode, and so in mode 0, the world is the
    one it started with: nothing published, nothing logged.  So that
    heartbeat is among the events of the turn if and only if the mode is 1
    or 2. *)
Theorem C5_heartbeat_iff_convoy (w : World) :
  let w' := exec send_heartbeat_tick w in
  let beat :=
    Publish "HEARTBEAT"
      (heartbeat_encode
         {| heartbeat_t.timestamp := to_microseconds (time_time (clock w));
            heartbeat_t.vehicle_id := vehicle_id (self w) |}) in
  result send_heartbeat_tick w = Returned tt /\
  exists delta,
    trace w' = (trace w ++ delta)%list /\
    (In beat (map fst delta) <->
     driving_mode (self w) = 1 \/ driving_mode (self w) = 2) /\
    (driving_mode (self w) = 1 \/ driving_mode (self w) = 2 ->
     published delta = [beat]) /\
    (~ (driving_mode (self w) = 1 \/ driving_mode (self w) = 2) ->
     w' = w) /\
    (driving_mode (self w) = 0 -> w' = w).
Proof.
  open_world w. unfold send_heartbeat_tick, int_in, existsb. unfold_monad.
  cbn.
  destruct (Z.eqb_spec driving_mode0 1) as [-> | N1];
    [| destruct (Z.eqb_spec driving_mode0 2) as [-> | N2]]; cbn.
  - split; [reflexivity|]. eexists. split.
    + rewrite <- !app_assoc. cbn. reflexivity.
    + cbn. repeat split; auto; intros; try lia; try tauto.
  - split; [reflexivity|]. eexists. split.
    + rewrite <- !app_assoc. cbn. reflexivity.
    + cbn. repeat split; auto; intros; try lia; try tauto.
  - split; [reflexivity|]. exists []. split.
    + rewrite app_nil_r. reflexivity.
    + cbn. repeat split; auto; intros; try lia; try tauto.
Qed.

(** C6, amended.  [turn_on_brake_lights] and [turn_off_brake_lights]
    return and change nothing when the lights are in the requested state.
    Otherwise they flip [brake_lights_on], leave every other field and so
    the event log as they were, and print one line with the time of day,
    "[HH:MM:SS] BRAKE LIGHTS ON" or "[HH:MM:SS] BRAKE LIGHTS OFF".  Asked
    twice in a row they do what they do when asked once. *)
Theorem C6_brake_edge_printed (w : World) (on : bool) :
  let request :=
    if on then turn_on_brake_lights else turn_off_brake_lights in
  let w' := exec request w in
  result request w = Returned tt /\
  (brake_lights_on (self w) = on -> w' = w) /\
  (brake_lights_on (self w) <> on ->
   self w' = with_brake_lights_on on (self w) /\
   log_messages (self w') = log_messages (self w) /\
   trace w' =
     (trace w
      ++ [(Print ("[" ++ strftime (datetime_now (clock w)) "%H:%M:%S"
                  ++ "] BRAKE LIGHTS " ++ (if on then "ON" else "OFF")),
           self w')])%list) /\
  exec (request ;; request) w = w'.
Proof.
  open_world w. unfold turn_on_brake_lights, turn_off_brake_lights.
  unfold_monad.
  destruct on, brake_lights_on0; cbn;
    repeat split; try reflexivity; intros; congruence.
Qed.

(** C7, amended.  In mode 0, running, with the lights off, the samples
    true, true, false (and no [q] pressed in between) make the module
    print one line BRAKE LIGHTS ON, at the first sample, and one line
    BRAKE LIGHTS OFF, at the third, and publish nothing.  The event log
    gains two entries, one for each sample that is true, both "Mode 0:
    Object detected, brake lights ON", and none for the lights going
    off.  The lights end off. *)
Theorem C7_single_mode_sequence (w : World) (k1 k2 k3 : Z) :
  driving_mode (self w) = 0 ->
  brake_lights_on (self w) = false ->
  running (self w) = true ->
  pressed_q k1 = false ->
  pressed_q k2 = false ->
  let w' := exec (process_frame (samples true true false k1 k2 k3)) w in
  let detected := "Mode 0: Object detected, brake lights ON" in
  result (process_frame (samples true true false k1 k2 k3)) w
    = Returned tt /\
  log_messages (self w') =
    (log_messages (self w)
     ++ [entry_at w 2 detected; entry_at w 4 detected])%list /\
  brake_lights_on (self w') = false /\
  exists delta,
    trace w' = (trace w ++ delta)%list /\
    map fst delta =
      [Print (brake_line_at w 1 "ON");
       Print (entry_at w 2 detected);
       Print (entry_at w 4 detected);
       Print (brake_line_at w 6 "OFF")] /\
    published delta = [].
Proof.
  intros Hmode Hoff Hrun Hk1 Hk2. unfold pressed_q in *.
  open_world w. subst.
  unfold samples, process_frame, handle_driving_mode,
    turn_on_brake_lights, turn_off_brake_lights, entry_at, brake_line_at.
  unfold_monad. cbn. rewrite Hk1. cbn. rewrite Hk2. cbn.
  destruct (Z.land k3 255 =? 113); cbn;
    (split; [reflexivity|]; split;
     [rewrite <- !app_assoc; reflexivity|];
     split; [reflexivity|];
     eexists; split;
     [rewrite <- !app_assoc; cbn; reflexivity | split; reflexivity]).
Qed.

(** C8.  In mode 2 [handle_driving_mode] returns having changed no field
    of the object and published and printed nothing, whatever the sample
    in [motion_detected].  A frame of the sensing loop therefore changes
    [motion_detected], where it stores the sample, and nothing else.  And
    whatever call a thread makes on a vehicle in mode 2, the brake lights
    change only if it is the arrival of a message on channel WARNING. *)
Theorem C8_member_ignores_samples (w : World) :
  driving_mode (self w) = 2 ->
  handle_driving_mode w =
    (Returned tt,
     {| self := self w; trace := trace w; clock := S (clock w) |}) /\
  (forall f,
      self (exec (perform (Sense f)) w)
        = with_motion_detected (motion f) (self w) /\
      trace (exec (perform (Sense f)) w) = trace w) /\
  (forall a,
      brake_lights_on (self (exec (perform a) w))
        <> brake_lights_on (self w) ->
      exists data, a = Arrive "WARNING" data).
Proof.
  intros Hmode. split; [| split].
  - open_world w. subst. reflexivity.
  - open_world w. subst. intros f; split; reflexivity.
  - intros a Hchange.
    assert (Hlog : blind_to_log brake_lights_on)
      by (intros v []; reflexivity).
    assert (Hmd : blind_to_mode brake_lights_on)
      by (intros v []; reflexivity).
    destruct a as [f | | channel data | cmd | mode | | ];
      unfold exec in Hchange; cbn [perform] in Hchange.
    + exfalso. apply Hchange. open_world w. subst. reflexivity.
    + exfalso. apply Hchange.
      apply (keeps_send_heartbeat_tick brake_lights_on Hlog).
    + unfold lcm_handle_timeout in Hchange.
      destruct (String.eqb_spec channel "WARNING") as [-> | Hw].
      * exists data. reflexivity.
      * exfalso. apply Hchange.
        destruct (String.eqb channel "MODE"); [| reflexivity].
        apply (keeps__handle_mode_message brake_lights_on Hlog).
    + exfalso. apply Hchange.
      apply (keeps_command brake_lights_on Hlog Hmd).
    + exfalso. apply Hchange.
      apply (keeps_set_driving_mode brake_lights_on Hlog Hmd).
    + exfalso. apply Hchange. reflexivity.
    + exfalso. apply Hchange. reflexivity.
Qed.

(** C9, amended.  No lock guards the object.  The pieces of a turn of
    the heartbeat loop, run with nothing in between, are the turn, and
    every heartbeat the turn publishes is published while the driving
    mode is 1 or 2.  But when the driving mode is 1 or 2, a change to
    mode 0 by another thread can come between the turn's test of the mode
    and its publication, and the heartbeat is then published while the
    driving mode is 0. *)
Theorem C9_consistent_when_uninterrupted (w : World) :
  run send_heartbeat_tick_thread w = send_heartbeat_tick w /\
  (exists delta,
      trace (exec send_heartbeat_tick w) = (trace w ++ delta)%list /\
      forall e o,
        In (e, o) delta ->
        is_publish_on "HEARTBEAT" e = true ->
        driving_mode o = 1 \/ driving_mode o = 2) /\
  (driving_mode (self w) = 1 \/ driving_mode (self w) = 2 ->
   exists w' beat o,
     interleaves send_heartbeat_tick_thread
       (atomically (set_driving_mode 0)) w w' /\
     In (Publish "HEARTBEAT" beat, o) (trace w') /\
     driving_mode o = 0).
Proof.
  open_world w. split; [| split].
  - unfold send_heartbeat_tick_thread, send_heartbeat_tick, atomically.
    unfold_monad. cbn -[int_in].
    destruct (int_in driving_mode0 [1; 2]); reflexivity.
  - unfold send_heartbeat_tick. unfold_monad. cbn -[int_in].
    destruct (int_in driving_mode0 [1; 2]) eqn:E; cbn.
    + eexists. split; [rewrite <- !app_assoc; cbn; reflexivity |].
      assert (Hm : driving_mode0 = 1 \/ driving_mode0 = 2).
      { unfold int_in in E. cbn in E.
        destruct (Z.eqb_spec driving_mode0 1); [auto |].
        destruct (Z.eqb_spec driving_mode0 2); [auto | discriminate E]. }
      intros e o [Hin | [Hin | []]] Hpub;
        inversion Hin; subst; cbn in *; [exact Hm | discriminate Hpub].
    + exists []. split; [rewrite app_nil_r; reflexivity |].
      intros e o [].
  - intros Hm.
    assert (E : int_in driving_mode0 [1; 2] = true)
      by (destruct Hm; subst; reflexivity).
    eexists. eexists. eexists. split; [| split].
    + eapply left_runs.
      { unfold send_heartbeat_tick_thread. unfold_monad. cbn -[int_in].
        rewrite E. reflexivity. }
      eapply right_runs.
      { unfold atomically, set_driving_mode. unfold_monad. cbn.
        reflexivity. }
      eapply left_runs.
      { unfold atomically. unfold_monad. cbn. reflexivity. }
      apply both_done.
    + cbn. rewrite <- !app_assoc. apply in_or_app. right. cbn.
      right. right. right. left. reflexivity.
    + reflexivity.
Qed.

(** C10.  The driving mode of a new object is 0.  Every call a thread
    makes on the object, and every loop of the module, leaves a driving
    mode that is 0, 1 or 2 so.  Hence in every world the process can
    reach the driving mode is 0, 1 or 2.  [set_driving_mode] returns
    whatever it is given, its lookups in [mode_names] being made only
    with a mode it has found to be 0, 1 or 2, for which the table has a
    name; and [show_status] returns in every reachable world, where the
    table has a name for the driving mode. *)
Theorem C10_mode_always_valid :
  (forall camera threshold min_area vehicle_id,
      driving_mode (init camera threshold min_area vehicle_id) = 0) /\
  (forall a, preserves valid_mode (perform a)) /\
  (forall frames, preserves valid_mode (process_frame frames)) /\
  (forall turns, preserves valid_mode (send_heartbeat turns)) /\
  (forall arrivals, preserves valid_mode (_lcm_handler_loop arrivals)) /\
  (forall opened input, preserves valid_mode (start opened input)) /\
  (forall w, reachable w -> valid_mode (self w)) /\
  (forall w mode, result (set_driving_mode mode) w = Returned tt) /\
  (forall mode,
      int_in mode [0; 1; 2] = true ->
      0 <= mode < Z.of_nat (List.length mode_names) /\
      exists name, getitem mode_names mode = Some name) /\
  (forall w,
      reachable w ->
      result show_status w = Returned tt /\
      0 <= driving_mode (self w) < Z.of_nat (List.length mode_names) /\
      exists name, getitem mode_names (driving_mode (self w)) = Some name).
Proof.
  assert (Hnames : forall z, In z [0; 1; 2] ->
            0 <= z < Z.of_nat (List.length mode_names) /\
            exists name, getitem mode_names z = Some name).
  { intros z [<- | [<- | [<- | []]]]; cbn; (split; [lia | eexists; reflexivity]). }
  split; [reflexivity |].
  split; [exact valid_perform |].
  split; [exact valid_process_frame |].
  split; [exact valid_send_heartbeat |].
  split; [exact valid__lcm_handler_loop |].
  split; [exact valid_start |].
  split; [exact valid_reachable |].
  split; [exact set_driving_mode_returns |].
  split.
  - intros mode H. apply Hnames, int_in_modes, H.
  - intros w Hw. apply valid_reachable in Hw.
    split; [apply show_status_returns, Hw | apply Hnames, Hw].
Qed.

End Claims.

(** * What no method breaks *)

Lemma preserves_set (I : MotionDetector -> Prop)
    (update : MotionDetector -> MotionDetector) :
  (forall o, I o -> I (update o)) -> preserves I (set update).
Proof. intros H w Hw. apply H, Hw. Qed.

Lemma preserves_same {B} (I : MotionDetector -> Prop) (m : M B) :
  keeps (fun o => o) m -> preserves I m.
Proof. apply (preserves_keeps (fun o => o) I). Qed.

(** Proving [preserves I m] for a method [m] and a stable [I]: follow the
    structure of [m]; what writes no field is left to [keeps]. *)
Ltac stable_step :=
  match goal with
  | |- preserves _ (bind _ _) => apply preserves_bind; [| intros ?]
  | |- preserves _ (try_except _ _) => apply preserves_try_except; [| intros ?]
  | |- preserves _ (try_finally _ _) => apply preserves_try_finally
  | |- preserves _ (if ?b then _ else _) => destruct b
  | |- preserves _ (match ?x with _ => _ end) => destruct x
  | |- preserves _ (set _) => apply preserves_set; solve [auto]
  | H : preserves ?I ?m |- preserves ?I ?m => exact H
  end.

Create HintDb stable.

Ltac stable_all :=
  repeat first
    [ stable_step
    | solve [auto with stable]
    | apply preserves_same; solve [keeps_all] ].

Section Stable.
Context {P : Platform} (I : MotionDetector -> Prop).
#[local] Existing Instance lossless.
Hypothesis HI : stable I.

Let Hmode : forall v o, I o -> I (with_driving_mode v o) := proj1 HI.
Let Hmotion : forall v o, I o -> I (with_motion_detected v o) :=
  proj1 (proj2 HI).
Let Hbrake : forall v o, I o -> I (with_brake_lights_on v o) :=
  proj1 (proj2 (proj2 HI)).
Let Hrunning : forall v o, I o -> I (with_running v o) :=
  proj1 (proj2 (proj2 (proj2 HI))).
Let Hlog :
  forall e o, I o -> I (with_log_messages (log_messages o ++ [e])%list o) :=
  proj2 (proj2 (proj2 (proj2 HI))).

Lemma stable_log_event (message : string) : preserves I (log_event message).
Proof.
  unfold log_event, now_strftime.
  apply preserves_bind; [stable_all | intros stamp].
  apply preserves_bind; [| intros ?; stable_all].
  apply preserves_set. intros o. apply Hlog.
Qed.
#[local] Hint Resolve stable_log_event : stable.

Lemma stable_send_warning_message (t : float) (description : string) :
  preserves I (send_warning_message t description).
Proof. unfold send_warning_message. stable_all. Qed.
#[local] Hint Resolve stable_send_warning_message : stable.

Lemma stable_turn_on_brake_lights : preserves I turn_on_brake_lights.
Proof. unfold turn_on_brake_lights, now_strftime. stable_all. Qed.

Lemma stable_turn_off_brake_lights : preserves I turn_off_brake_lights.
Proof. unfold turn_off_brake_lights, now_strftime. stable_all. Qed.
#[local] Hint Resolve stable_turn_on_brake_lights
  stable_turn_off_brake_lights : stable.

Lemma stable_handle_driving_mode : preserves I handle_driving_mode.
Proof. unfold handle_driving_mode, time_now. stable_all. Qed.

Lemma stable_send_heartbeat_tick : preserves I send_heartbeat_tick.
Proof. unfold send_heartbeat_tick, time_now. stable_all. Qed.

Lemma stable_handle_warning_message (t : float) :
  preserves I (handle_warning_message t).
Proof. unfold handle_warning_message. stable_all. Qed.
#[local] Hint Resolve stable_handle_warning_message : stable.

Lemma stable_lcm_handle_timeout (pending : option (string * bytes)) :
  preserves I (lcm_handle_timeout pending).
Proof.
  unfold lcm_handle_timeout, _handle_warning_message, _handle_mode_message.
  stable_all.
Qed.

Lemma stable_set_driving_mode (mode : Z) :
  preserves I (set_driving_mode mode).
Proof. unfold set_driving_mode, time_now. stable_all. Qed.

Lemma stable_command (cmd : string) : preserves I (command cmd).
Proof.
  unfold command, time_now.
  repeat match goal with
         | |- preserves _ (if ?b then _ else _) => destruct b
         end;
    try apply stable_set_driving_mode;
    try (unfold send_status_message, show_status, show_logs, time_now);
    stable_all.
Qed.

Lemma stable_stop : preserves I stop.
Proof. unfold stop. stable_all. Qed.

Lemma stable_perform (a : action) : preserves I (perform a).
Proof.
  destruct a as [f | | channel data | cmd | mode | | ]; cbn [perform].
  - apply preserves_bind; [stable_all | intros _].
    apply stable_handle_driving_mode.
  - apply stable_send_heartbeat_tick.
  - apply stable_lcm_handle_timeout.
  - apply stable_command.
  - apply stable_set_driving_mode.
  - stable_all.
  - apply stable_stop.
Qed.

Lemma stable_process_frame (frames : list (option frame)) :
  preserves I (process_frame frames).
Proof.
  induction frames as [| f rest IH]; cbn [process_frame]; [stable_all |].
  apply preserves_bind; [stable_all | intros go].
  destruct go; [| stable_all].
  destruct f as [fr |]; [| stable_all].
  apply preserves_bind; [stable_all | intros _].
  apply preserves_bind; [apply stable_handle_driving_mode | intros _].
  destruct (Z.land (key fr) 255 =? 113); stable_all.
Qed.

Lemma stable_send_heartbeat (turns : nat) :
  preserves I (send_heartbeat turns).
Proof.
  induction turns as [| turns IH]; cbn [send_heartbeat]; [stable_all |].
  apply preserves_bind; [stable_all | intros go].
  destruct go; [| stable_all].
  apply preserves_bind; [apply stable_send_heartbeat_tick | intros _; exact IH].
Qed.

Lemma stable__lcm_handler_loop (arrivals : list (option (string * bytes))) :
  preserves I (_lcm_handler_loop arrivals).
Proof.
  induction arrivals as [| a rest IH]; cbn [_lcm_handler_loop]; [stable_all |].
  apply preserves_bind; [stable_all | intros go].
  destruct go; [| stable_all].
  apply preserves_bind; [| intros _; exact IH].
  apply preserves_try_except; [apply stable_lcm_handle_timeout | intros e].
  stable_all.
Qed.

Lemma stable_command_loop (input : list console) :
  preserves I (command_loop input).
Proof.
  induction input as [| c rest IH]; cbn [command_loop]; [stable_all |].
  apply preserves_bind; [stable_all | intros go].
  destruct go; [| stable_all].
  destruct c as [cmd |]; [| stable_all].
  destruct (String.eqb cmd "q"); [stable_all |].
  apply preserves_bind; [apply stable_command | intros _; exact IH].
Qed.

Lemma stable_start (opened : bool) (input : list console) :
  preserves I (start opened input).
Proof.
  unfold start. apply preserves_try_finally; [| apply stable_stop].
  apply preserves_try_except; [| intros e; stable_all].
  apply preserves_bind; [unfold initialize_camera; stable_all | intros _].
  repeat (apply preserves_bind; [stable_all | intros ?]).
  apply stable_command_loop.
Qed.

End Stable.

Lemma stable_extends_log (base : list string) : stable (extends_log base).
Proof.
  unfold stable, extends_log.
  repeat split; intros v [] [later H]; cbn in *;
    try (exists later; exact H).
  exists (later ++ [v])%list. rewrite H, app_assoc. reflexivity.
Qed.

Lemma stable_identity (id : Z * Z * Z * Z) :
  stable (fun o => identity o = id).
Proof. unfold stable, identity. repeat split; intros v [] H; exact H. Qed.

(** * What raises nothing *)

Section Returns.
#[local] Existing Instance lossless.

Lemma returns_ret {B} (b : B) : returns (ret b).
Proof. intros w. exists b. reflexivity. Qed.

Lemma returns_get {B} (g : MotionDetector -> B) : returns (get g).
Proof. intros w. eexists. reflexivity. Qed.

Lemma returns_set (update : MotionDetector -> MotionDetector) :
  returns (set update).
Proof. intros w. eexists. reflexivity. Qed.

Lemma returns_emit (e : event) : returns (emit e).
Proof. intros w. eexists. reflexivity. Qed.

Lemma returns_print (line : string) : returns (print line).
Proof. apply returns_emit. Qed.

Lemma returns_lcm_publish (channel : string) (data : bytes) :
  returns (lcm_publish channel data).
Proof. apply returns_emit. Qed.

Lemma returns_encode {B} (layout : B -> bytes) (message : B) :
  returns (encode (fun _ => None) layout message).
Proof. apply returns_ret. Qed.

Lemma returns_read_clock : returns read_clock.
Proof. intros w. eexists. reflexivity. Qed.

Lemma returns_time_sleep : returns time_sleep.
Proof. intros w. eexists. reflexivity. Qed.

Lemma returns_bind {B C} (m : M B) (k : B -> M C) :
  returns m -> (forall b, returns (k b)) -> returns (bind m k).
Proof.
  intros Hm Hk w. unfold bind.
  destruct (Hm w) as [b Hb]. destruct (m w) as [r w1]. cbn in Hb. subst r.
  apply Hk.
Qed.

(** A [try] with an [except Exception] whose handler raises nothing
    raises nothing, whatever its body does. *)
Lemma returns_try_except {B} (body : M B) (handler : string -> M B) :
  (forall e, returns (handler e)) -> returns (try_except body handler).
Proof.
  intros Hh w. unfold try_except.
  destruct (body w) as [[b | e] w1]; [exists b; reflexivity | apply Hh].
Qed.

Lemma returns_try_finally {B} (body : M B) (final : M unit) :
  returns body -> returns final -> returns (try_finally body final).
Proof.
  intros Hb Hf w. unfold try_finally.
  destruct (Hb w) as [b Eb]. destruct (body w) as [r w1]. cbn in Eb. subst r.
  destruct (Hf w1) as [u Eu]. destruct (final w1) as [r w2]. cbn in Eu.
  subst r. exists b. reflexivity.
Qed.

Lemma returns_print_each (lines : list string) : returns (print_each lines).
Proof.
  induction lines as [| line rest IH]; cbn [print_each].
  - apply returns_ret.
  - apply returns_bind; [apply returns_print | intros _; exact IH].
Qed.

Lemma returns_tt (m : M unit) (w : World) :
  returns m -> result m w = Returned tt.
Proof. intros H. destruct (H w) as [[] E]. exact E. Qed.

End Returns.

Ltac returns_step :=
  match goal with
  | |- returns (bind _ _) => apply returns_bind; [| intros ?]
  | |- returns (try_except _ _) => apply returns_try_except; intros ?
  | |- returns (try_finally _ _) => apply returns_try_finally
  | |- returns (ret _) => apply returns_ret
  | |- returns (get _) => apply returns_get
  | |- returns (set _) => apply returns_set
  | |- returns (print _) => apply returns_print
  | |- returns (lcm_publish _ _) => apply returns_lcm_publish
  | |- returns (encode _ _ _) => apply returns_encode
  | |- returns read_clock => apply returns_read_clock
  | |- returns time_sleep => apply returns_time_sleep
  | |- returns (print_each _) => apply returns_print_each
  | |- returns (if ?b then _ else _) => destruct b
  | |- returns (match ?x with _ => _ end) => destruct x
  | H : returns ?m |- returns ?m => exact H
  end.

Create HintDb returns.

Ltac returns_all := repeat first [returns_step | solve [auto with returns]].

(** What is caught: the calls that end in an [except Exception] raise
    nothing, whatever the wire refuses inside them. *)
Section Caught.
Context {P : Platform} {W : Wire}.

Lemma returns_log_event (message : string) : returns (log_event message).
Proof. unfold log_event, now_strftime. returns_all. Qed.
#[local] Hint Resolve returns_log_event : returns.

(** The two handlers end in an [except Exception] that logs: they raise
    nothing, whatever arrives. *)
Lemma returns__handle_warning_message (channel : string) (data : bytes) :
  returns (_handle_warning_message channel data).
Proof. unfold _handle_warning_message. returns_all. Qed.

Lemma returns__handle_mode_message (channel : string) (data : bytes) :
  returns (_handle_mode_message channel data).
Proof. unfold _handle_mode_message. returns_all. Qed.

Lemma returns_lcm_handle_timeout (pending : option (string * bytes)) :
  returns (lcm_handle_timeout pending).
Proof.
  unfold lcm_handle_timeout.
  destruct pending as [[channel data] |]; [| returns_all].
  destruct (String.eqb channel "WARNING");
    [apply returns__handle_warning_message |].
  destruct (String.eqb channel "MODE");
    [apply returns__handle_mode_message | returns_all].
Qed.

Lemma returns__lcm_handler_loop (arrivals : list (option (string * bytes))) :
  returns (_lcm_handler_loop arrivals).
Proof.
  induction arrivals as [| a rest IH]; cbn [_lcm_handler_loop]; [returns_all |].
  apply returns_bind; [returns_all | intros go].
  destruct go; [| returns_all].
  apply returns_bind; [| intros _; exact IH].
  apply returns_try_except. intros e. returns_all.
Qed.

Lemma returns_show_logs : returns show_logs.
Proof. unfold show_logs. returns_all. Qed.

Lemma returns_stop : returns stop.
Proof. unfold stop. returns_all. Qed.

(** [start] ends in an [except Exception] that prints and a [finally]
    that stops. *)
Lemma returns_start (opened : bool) (input : list console) :
  returns (start opened input).
Proof.
  unfold start. apply returns_try_finally; [| apply returns_stop].
  apply returns_try_except. intros e. returns_all.
Qed.

End Caught.

(** On the wire that refuses nothing, a sample of the sensing loop
    raises nothing. *)
Section ReturnsMethods.
Context {P : Platform}.
#[local] Existing Instance lossless.
#[local] Hint Resolve returns_log_event : returns.

Lemma returns_send_warning_message (t : float) (description : string) :
  returns (send_warning_message t description).
Proof. unfold send_warning_message. returns_all. Qed.
#[local] Hint Resolve returns_send_warning_message : returns.

Lemma returns_turn_on_brake_lights : returns turn_on_brake_lights.
Proof. unfold turn_on_brake_lights, now_strftime. returns_all. Qed.

Lemma returns_turn_off_brake_lights : returns turn_off_brake_lights.
Proof. unfold turn_off_brake_lights, now_strftime. returns_all. Qed.
#[local] Hint Resolve returns_turn_on_brake_lights
  returns_turn_off_brake_lights : returns.

Lemma returns_handle_driving_mode : returns handle_driving_mode.
Proof. unfold handle_driving_mode, time_now. returns_all. Qed.

End ReturnsMethods.

(** * The loops, turn by turn *)

Lemma count_on_app (channel : string) (d1 d2 : list (event * MotionDetector)) :
  count_on channel (d1 ++ d2) = (count_on channel d1 + count_on channel d2)%nat.
Proof.
  unfold count_on. rewrite map_app, filter_app, length_app. reflexivity.
Qed.

Lemma blind_log_running : blind_to_log running.
Proof. intros v []; reflexivity. Qed.

Lemma blind_brake_running : blind_to_brake running.
Proof. intros v []; reflexivity. Qed.

Lemma blind_log_vehicle_id : blind_to_log vehicle_id.
Proof. intros v []; reflexivity. Qed.

Lemma blind_brake_vehicle_id : blind_to_brake vehicle_id.
Proof. intros v []; reflexivity. Qed.

(** * Arrivals, whatever the wire refuses *)

Section Arrivals.
Context {P : Platform} {W : Wire}.

(** An arrival handled while [running] is true is followed by the
    arrivals after it. *)
Lemma _lcm_handler_loop_step
    (a : option (string * bytes)) (rest : list (option (string * bytes)))
    (w : World) :
  running (self w) = true ->
  _lcm_handler_loop (a :: rest) w =
    _lcm_handler_loop rest (exec (lcm_handle_timeout a) w).
Proof.
  intros Hrun. cbn [_lcm_handler_loop].
  unfold exec, bind, get, try_except. rewrite Hrun.
  destruct (returns_lcm_handle_timeout a w) as [[] E].
  destruct (lcm_handle_timeout a w) as [r w1]. cbn in E. subst r.
  reflexivity.
Qed.

(** A member relays the warning of another vehicle that the wire lets
    through: its brake lights end on, and it has published one message
    and no more, the relay. *)
Lemma member_relays_what_goes_through
    (w : World) (channel : string) (data : bytes) (msg : warning_t.t) :
  warning_decode data = Returned msg ->
  warning_t.vehicle_id msg <> vehicle_id (self w) ->
  driving_mode (self w) = 2 ->
  goes_through (relay (vehicle_id (self w)) msg) ->
  let w' := exec (_handle_warning_message channel data) w in
  result (_handle_warning_message channel data) w = Returned tt /\
  brake_lights_on (self w') = true /\
  exists delta,
    trace w' = (trace w ++ delta)%list /\
    published delta =
      [Publish "WARNING" (warning_encode (relay (vehicle_id (self w)) msg))].
Proof.
  intros Hdec Hother Hmode [Henc Hpub].
  open_world w. subst. unfold relay in *. cbn in Henc, Hpub.
  apply Z.eqb_neq in Hother.
  unfold _handle_warning_message, handle_warning_message,
    turn_on_brake_lights.
  unfold_monad. rewrite Hdec. cbn. rewrite Hother. cbn.
  destruct brake_lights_on0; cbn; rewrite Henc; cbn; rewrite Hpub; cbn;
    (split; [reflexivity |]; split; [reflexivity |]; eexists; split;
     [rewrite <- !app_assoc; cbn; reflexivity | reflexivity]).
Qed.

(** A member whose relay is refused by [encode()]: its brake lights end
    on, nothing is published, and the exception is in the last entry of
    the log. *)
Lemma member_logs_what_is_refused
    (w : World) (channel : string) (data : bytes) (msg : warning_t.t)
    (e : string) :
  warning_decode data = Returned msg ->
  warning_t.vehicle_id msg <> vehicle_id (self w) ->
  driving_mode (self w) = 2 ->
  warning_refused (relay (vehicle_id (self w)) msg) = Some e ->
  let w' := exec (_handle_warning_message channel data) w in
  result (_handle_warning_message channel data) w = Returned tt /\
  brake_lights_on (self w') = true /\
  exists delta earlier stamp,
    trace w' = (trace w ++ delta)%list /\
    published delta = [] /\
    log_messages (self w') =
      (earlier
       ++ [("[" ++ stamp ++ "] Error handling warning message: " ++ e)
             %string])%list.
Proof.
  intros Hdec Hother Hmode Henc.
  open_world w. subst. unfold relay in *. cbn in Henc.
  apply Z.eqb_neq in Hother.
  unfold _handle_warning_message, handle_warning_message,
    turn_on_brake_lights.
  unfold_monad. rewrite Hdec. cbn. rewrite Hother. cbn.
  destruct brake_lights_on0; cbn; rewrite Henc; cbn;
    (split; [reflexivity |]; split; [reflexivity |];
     eexists; eexists; eexists; split;
     [rewrite <- !app_assoc; cbn; reflexivity |
      split; reflexivity]).
Qed.

(** The arrival of a relayable warning in mode 2: one relay. *)
Lemma relay_of_relayable (a : option (string * bytes)) (w : World) :
  driving_mode (self w) = 2 ->
  relayable (vehicle_id (self w)) a ->
  let w' := exec (lcm_handle_timeout a) w in
  driving_mode (self w') = 2 /\
  running (self w') = running (self w) /\
  vehicle_id (self w') = vehicle_id (self w) /\
  brake_lights_on (self w') = true /\
  exists delta,
    trace w' = (trace w ++ delta)%list /\ count_on "WARNING" delta = 1%nat.
Proof.
  intros Hmode [data [msg [-> [Hdec [Hother [Henc Hpub]]]]]].
  apply Z.eqb_neq in Hother. open_world w. subst.
  unfold relay in *. cbn in Henc, Hpub.
  unfold lcm_handle_timeout. cbn [String.eqb Ascii.eqb Bool.eqb].
  unfold _handle_warning_message, handle_warning_message,
    turn_on_brake_lights.
  unfold_monad. rewrite Hdec. cbn. rewrite Hother. cbn.
  destruct brake_lights_on0; cbn; rewrite Henc; cbn; rewrite Hpub; cbn;
    (repeat (split; [reflexivity |]); eexists; split;
     [rewrite <- !app_assoc; cbn; reflexivity | reflexivity]).
Qed.

End Arrivals.

Section Turns.
Context {P : Platform}.
#[local] Existing Instance lossless.

(** A loop that finds [running] false ends at once. *)
Lemma idle_process_frame (frames : list (option frame)) (w : World) :
  running (self w) = false -> process_frame frames w = (Returned tt, w).
Proof.
  intros H. destruct frames; cbn [process_frame]; [reflexivity |].
  unfold bind, get. rewrite H. reflexivity.
Qed.

Lemma idle_send_heartbeat (turns : nat) (w : World) :
  running (self w) = false -> send_heartbeat turns w = (Returned tt, w).
Proof.
  intros H. destruct turns; cbn [send_heartbeat]; [reflexivity |].
  unfold bind, get. rewrite H. reflexivity.
Qed.

Lemma idle__lcm_handler_loop
    (arrivals : list (option (string * bytes))) (w : World) :
  running (self w) = false -> _lcm_handler_loop arrivals w = (Returned tt, w).
Proof.
  intros H. destruct arrivals; cbn [_lcm_handler_loop]; [reflexivity |].
  unfold bind, get. rewrite H. reflexivity.
Qed.

Lemma idle_command_loop (input : list console) (w : World) :
  running (self w) = false -> command_loop input w = (Returned tt, w).
Proof.
  intros H. destruct input; cbn [command_loop];
    unfold bind, get; rewrite H; reflexivity.
Qed.

(** A clear frame, handled while [running] is true, is followed by the
    frames after it. *)
Lemma process_frame_step (fr : frame) (rest : list (option frame)) (w : World) :
  running (self w) = true ->
  pressed_q (key fr) = false ->
  process_frame (Some fr :: rest) w =
    process_frame rest (exec (perform (Sense fr)) w).
Proof.
  intros Hrun Hq. unfold pressed_q in Hq.
  cbn [process_frame perform]. rewrite Hq.
  unfold exec, bind, get, set, time_sleep, ret. rewrite Hrun.
  match goal with
  | |- context [handle_driving_mode ?w1] =>
      destruct (returns_handle_driving_mode w1) as [[] E];
      destruct (handle_driving_mode w1) as [r w2]
  end.
  cbn in E. subst r. reflexivity.
Qed.

Lemma sense_keeps_running (fr : frame) (w : World) :
  running (self (exec (perform (Sense fr)) w)) = running (self w).
Proof.
  unfold exec. cbn [perform].
  apply (keeps_bind running); [keeps_all | intros _].
  apply keeps_handle_driving_mode;
    [apply blind_log_running | apply blind_brake_running].
Qed.

Lemma sense_keeps_mode (fr : frame) (w : World) :
  driving_mode (self (exec (perform (Sense fr)) w)) = driving_mode (self w).
Proof.
  unfold exec. cbn [perform].
  apply (keeps_bind driving_mode); [keeps_all | intros _].
  apply keeps_handle_driving_mode;
    [apply blind_log_mode | apply blind_brake_mode].
Qed.

(** A frame in which something moves, in mode 1: one warning, lights
    on. *)
Lemma sense_as_head (fr : frame) (w : World) :
  driving_mode (self w) = 1 ->
  motion fr = true ->
  let w' := exec (perform (Sense fr)) w in
  brake_lights_on (self w') = true /\
  exists delta,
    trace w' = (trace w ++ delta)%list /\ count_on "WARNING" delta = 1%nat.
Proof.
  intros Hmode Hmotion. open_world w. subst. cbn [perform].
  unfold handle_driving_mode, turn_on_brake_lights. unfold_monad.
  rewrite Hmotion. cbn.
  destruct brake_lights_on0; cbn;
    (split; [reflexivity |]; eexists; split;
     [rewrite <- !app_assoc; cbn; reflexivity | reflexivity]).
Qed.

(** A turn of the heartbeat loop in mode 1 or 2: one heartbeat. *)
Lemma tick_in_convoy (w : World) :
  int_in (driving_mode (self w)) [1; 2] = true ->
  exists w' delta,
    send_heartbeat_tick w = (Returned tt, w') /\
    driving_mode (self w') = driving_mode (self w) /\
    running (self w') = running (self w) /\
    trace w' = (trace w ++ delta)%list /\
    count_on "HEARTBEAT" delta = 1%nat /\
    List.length (published delta) = 1%nat.
Proof.
  intros H. open_world w.
  unfold send_heartbeat_tick. unfold_monad. cbn -[int_in]. rewrite H. cbn.
  eexists. eexists. split; [reflexivity |].
  split; [reflexivity |]. split; [reflexivity |].
  split; [rewrite <- !app_assoc; cbn; reflexivity |].
  split; reflexivity.
Qed.

Lemma tick_outside_convoy (w : World) :
  int_in (driving_mode (self w)) [1; 2] = false ->
  send_heartbeat_tick w = (Returned tt, w).
Proof.
  intros H. open_world w.
  unfold send_heartbeat_tick. unfold_monad. cbn -[int_in]. rewrite H.
  reflexivity.
Qed.

(** Clear frames followed by further frames: the loop over the first,
    then the loop over the further ones. *)
Lemma process_frame_app (pre post : list (option frame)) :
  Forall clear_frame pre ->
  forall w,
    process_frame (pre ++ post) w
      = (process_frame pre ;; process_frame post) w.
Proof.
  induction 1 as [| f pre [fr [-> Hq]] Hpre IH]; intros w.
  - reflexivity.
  - cbn [app]. destruct (running (self w)) eqn:Hrun.
    + rewrite (process_frame_step fr (pre ++ post) w Hrun Hq), IH.
      unfold bind. rewrite (process_frame_step fr pre w Hrun Hq).
      reflexivity.
    + rewrite (idle_process_frame _ w Hrun).
      unfold bind. rewrite (idle_process_frame _ w Hrun).
      rewrite (idle_process_frame _ w Hrun). reflexivity.
Qed.

(** A turn taken while [running] is true is followed by the turns after
    it. *)
Lemma send_heartbeat_step (turns : nat) (w : World) :
  running (self w) = true ->
  send_heartbeat (S turns) w = (send_heartbeat_tick ;; send_heartbeat turns) w.
Proof.
  intros Hrun. cbn [send_heartbeat]. unfold bind at 1. unfold get.
  rewrite Hrun. reflexivity.
Qed.

(** What [print_each] does: it prints the lines in their order. *)
Lemma print_each_prints (lines : list string) (w : World) :
  print_each lines w =
    (Returned tt,
     {| self := self w;
        trace := (trace w ++ map (fun l => (Print l, self w)) lines)%list;
        clock := clock w |}).
Proof.
  revert w. induction lines as [| line rest IH]; intros w; cbn [print_each].
  - cbn. rewrite app_nil_r. destruct w; reflexivity.
  - unfold bind, print, emit. rewrite IH. cbn.
    rewrite <- app_assoc. reflexivity.
Qed.

End Turns.

(** * Further properties of the module

    Like the claims, the properties of this section are stated on the
    wire [lossless]; those of the next hold on every wire. *)

Section Further.
Context {P : Platform}.
#[local] Existing Instance lossless.

(** X1.  In mode 1 a sample in which something moves makes
    [handle_driving_mode] return with the brake lights on, having
    published one message and no more: on channel WARNING, with
    description "Motion detected", the vehicle's id and the time read at
    the start of the call in microseconds.  The log gains two entries,
    for the warning sent and for the detection. *)
Theorem head_sample_warns (w : World) :
  driving_mode (self w) = 1 ->
  motion_detected (self w) = true ->
  let w' := exec handle_driving_mode w in
  let n := if brake_lights_on (self w) then 1%nat else 2%nat in
  result handle_driving_mode w = Returned tt /\
  brake_lights_on (self w') = true /\
  log_messages (self w') =
    (log_messages (self w)
     ++ [entry_at w n
           ("Warning message sent from vehicle "
            ++ str_int (vehicle_id (self w)) ++ ": "
            ++ str_float (time_time (clock w)));
         entry_at w (S n)
           "Mode 1: Object detected, brake lights ON, warning sent"])%list /\
  exists delta,
    trace w' = (trace w ++ delta)%list /\
    published delta =
      [Publish "WARNING"
         (warning_encode
            {| warning_t.timestamp :=
                 to_microseconds (time_time (clock w));
               warning_t.vehicle_id := vehicle_id (self w);
               warning_t.danger_detected := true;
               warning_t.description := "Motion detected" |})].
Proof.
  intros Hmode Hmotion. open_world w. subst.
  unfold handle_driving_mode, turn_on_brake_lights, entry_at.
  unfold_monad. cbn.
  destruct brake_lights_on0; cbn;
    (split; [reflexivity |]; split; [reflexivity |];
     split; [rewrite <- !app_assoc; reflexivity |];
     eexists; split; [rewrite <- !app_assoc; cbn; reflexivity | reflexivity]).
Qed.

(** X2.  [handle_driving_mode] publishes if and only if the driving mode
    is 1 and something moves, and then on channel WARNING only: in mode 0,
    in mode 2 and in any other mode a sample publishes nothing. *)
Theorem sensing_publishes_only_as_head (w : World) :
  exists delta,
    trace (exec handle_driving_mode w) = (trace w ++ delta)%list /\
    (published delta <> [] <->
     driving_mode (self w) = 1 /\ motion_detected (self w) = true) /\
    (forall e, In e (published delta) -> is_publish_on "WARNING" e = true).
Proof.
  open_world w.
  unfold handle_driving_mode, turn_on_brake_lights, turn_off_brake_lights.
  unfold_monad. cbn.
  destruct (Z.eqb_spec driving_mode0 0) as [-> | N0]; cbn;
    [| destruct (Z.eqb_spec driving_mode0 1) as [-> | N1]; cbn;
       [| destruct (driving_mode0 =? 2); cbn]];
    destruct motion_detected0, brake_lights_on0; cbn;
    (first [exists []; split; [rewrite app_nil_r; reflexivity |]
           | eexists; split; [rewrite <- ?app_assoc; cbn; reflexivity |]]);
    unfold published; cbn;
    (split;
     [split;
      [intros H; first [split; reflexivity | exfalso; apply H; reflexivity]
      | intros [H1 H2]; first [discriminate | congruence | lia]]
     | intros e He;
       repeat (destruct He as [He | He]; [subst e; reflexivity |]);
       destruct He]).
Qed.

(** X3.  In modes 0 and 1 a sample in which nothing moves makes
    [handle_driving_mode] return with the brake lights off and every other
    field, the log among them, as it was; nothing is published, and
    nothing at all happens when the lights are off already. *)
Theorem no_motion_releases_brake (w : World) :
  driving_mode (self w) = 0 \/ driving_mode (self w) = 1 ->
  motion_detected (self w) = false ->
  let w' := exec handle_driving_mode w in
  result handle_driving_mode w = Returned tt /\
  self w' = with_brake_lights_on false (self w) /\
  exists delta,
    trace w' = (trace w ++ delta)%list /\
    published delta = [] /\
    (brake_lights_on (self w) = false -> delta = []).
Proof.
  intros Hmode Hmotion. open_world w. subst.
  unfold handle_driving_mode, turn_off_brake_lights. unfold_monad.
  destruct Hmode as [-> | ->]; destruct brake_lights_on0; cbn;
    (split; [reflexivity |]; split; [reflexivity |];
     first [exists []; split; [rewrite app_nil_r; reflexivity |];
            split; [reflexivity | reflexivity]
           | eexists; split; [reflexivity |];
             split; [reflexivity | discriminate]]).
Qed.

(** X4.  A message that does not decode is dropped with one log entry,
    "Error handling warning message: ..." or "Error handling mode
    message: ..." with the text of the exception: the handler returns, no
    other field changes and nothing is published. *)
Theorem undecodable_message_logged
    (w : World) (channel : string) (data : bytes) (e : string) :
  (warning_decode data = Raised e ->
   _handle_warning_message channel data w =
     (Returned tt, logged w ("Error handling warning message: " ++ e))) /\
  (mode_decode data = Raised e ->
   _handle_mode_message channel data w =
     (Returned tt, logged w ("Error handling mode message: " ++ e))).
Proof.
  split; intros Hdec.
  - unfold _handle_warning_message, logged, entry_at. unfold_monad.
    rewrite Hdec. reflexivity.
  - unfold _handle_mode_message, logged, entry_at. unfold_monad.
    rewrite Hdec. reflexivity.
Qed.

(** X5.  A warning from another vehicle that arrives while the driving
    mode is not 2 is logged as received and that is all: the brake lights
    stay as they are and nothing is published. *)
Theorem foreign_warning_outside_convoy
    (w : World) (channel : string) (data : bytes) (msg : warning_t.t) :
  warning_decode data = Returned msg ->
  warning_t.vehicle_id msg <> vehicle_id (self w) ->
  driving_mode (self w) <> 2 ->
  _handle_warning_message channel data w =
    (Returned tt,
     logged w ("Received warning from vehicle "
               ++ str_int (warning_t.vehicle_id msg) ++ ": "
               ++ warning_t.description msg)).
Proof.
  intros Hdec Hother Hmode.
  apply Z.eqb_neq in Hother. apply Z.eqb_neq in Hmode.
  unfold _handle_warning_message, logged, entry_at. unfold_monad.
  rewrite Hdec, Hother. cbn. rewrite Hmode. reflexivity.
Qed.

(** X6.  A mode change of another vehicle is logged, with its sender, its
    mode and its description, and that is all: the driving mode of this
    vehicle and every other field but the log stay as they are, and
    nothing is published. *)
Theorem foreign_mode_change_logged
    (w : World) (channel : string) (data : bytes) (msg : mode_t.t) :
  mode_decode data = Returned msg ->
  mode_t.vehicle_id msg <> vehicle_id (self w) ->
  _handle_mode_message channel data w =
    (Returned tt,
     logged w ("Vehicle " ++ str_int (mode_t.vehicle_id msg)
               ++ " changed mode to " ++ str_int (mode_t.mode msg)
               ++ ": " ++ mode_t.mode_description msg)).
Proof.
  intros Hdec Hother. apply Z.eqb_neq in Hother.
  unfold _handle_mode_message, logged, entry_at. unfold_monad.
  rewrite Hdec, Hother. reflexivity.
Qed.

(** X7.  When the camera does not open, [start] prints the error and
    stops: it returns, [running] is false, the console is not read, and
    but for [running] the object is as it was. *)
Theorem start_without_camera (w : World) (input : list console) :
  start false input w =
    (Returned tt,
     {| self := with_running false (self w);
        trace :=
          (trace w
           ++ [(Print ("Error: Cannot open camera "
                       ++ str_int (camera_id (self w))), self w);
               (Print "Motion detection system stopped",
                with_running false (self w))])%list;
        clock := clock w |}).
Proof.
  unfold start, initialize_camera, stop. unfold_monad. cbn.
  rewrite <- app_assoc. reflexivity.
Qed.

(** X8.  [start] returns whatever happens in it, an exception of a
    command and the end of the input among them, and it ends stopped:
    [running] is false and the last line printed is "Motion detection
    system stopped". *)
Theorem start_always_stops (opened : bool) (input : list console) (w : World) :
  let w' := exec (start opened input) w in
  result (start opened input) w = Returned tt /\
  running (self w') = false /\
  exists before,
    trace w' =
      (before ++ [(Print "Motion detection system stopped", self w')])%list.
Proof.
  unfold start, exec, result, try_finally.
  match goal with
  | |- context [try_except ?body ?handler w] =>
      assert (Hr : exists w1, try_except body handler w = (Returned tt, w1))
  end.
  { unfold try_except.
    match goal with
    | |- context [match ?body w with _ => _ end] =>
        destruct (body w) as [[[] | e] w0]
    end; eexists; reflexivity. }
  destruct Hr as [w1 ->]. cbn.
  split; [reflexivity |]. split; [reflexivity |].
  eexists. reflexivity.
Qed.

(** X9.  [send_status_message] returns having published one message, on
    channel STATUS, whose fields are those of the object at the call
    (driving mode, last sample, brake lights, running flag, vehicle id)
    and the time read; but for the log entry that records it, the object
    is as it was. *)
Theorem status_is_snapshot (w : World) :
  let status :=
    {| status_t.timestamp := to_microseconds (time_time (clock w));
       status_t.vehicle_id := vehicle_id (self w);
       status_t.driving_mode := driving_mode (self w);
       status_t.motion_detected := motion_detected (self w);
       status_t.brake_lights_on := brake_lights_on (self w);
       status_t.system_running := running (self w);
       status_t.status_message :=
         "Vehicle " ++ str_int (vehicle_id (self w)) ++ " operational" |} in
  send_status_message w =
    (Returned tt,
     logged
       {| self := self w;
          trace :=
            (trace w ++ [(Publish "STATUS" (status_encode status), self w)])%list;
          clock := S (clock w) |}
       ("Status message sent from vehicle " ++ str_int (vehicle_id (self w)))).
Proof. reflexivity. Qed.

(** X10.  The console command [w] publishes a warning with description
    "Manual test warning" and the vehicle's id in every driving mode, mode
    0 among them, and logs it; the brake lights and the other fields stay
    as they are. *)
Theorem manual_warning_in_any_mode (w : World) :
  command "w" w =
    (Returned tt,
     logged
       {| self := self w;
          trace :=
            (trace w
             ++ [(Publish "WARNING"
                    (warning_encode
                       {| warning_t.timestamp :=
                            to_microseconds (time_time (clock w));
                          warning_t.vehicle_id := vehicle_id (self w);
                          warning_t.danger_detected := true;
                          warning_t.description := "Manual test warning" |}),
                  self w)])%list;
          clock := S (clock w) |}
       ("Warning message sent from vehicle " ++ str_int (vehicle_id (self w))
        ++ ": " ++ str_float (time_time (clock w)))).
Proof. reflexivity. Qed.

(** X11.  [set_driving_mode] with a mode that is 0, 1 or 2 logs the
    change from the mode the vehicle was in and prints the mode set, also
    when the two are the same: the log gains the one entry "Driving mode
    changed from ... to ... (...)", the last line printed is "Driving mode
    set to: ... (...)", and no field changes but the driving mode and the
    log. *)
Theorem mode_change_logged (w : World) (m : Z) :
  int_in m [0; 1; 2] = true ->
  let w' := exec (set_driving_mode m) w in
  exists name,
    getitem mode_names m = Some name /\
    self w' =
      with_log_messages
        (log_messages (self w)
         ++ [entry_at w 1
               ("Driving mode changed from "
                ++ str_int (driving_mode (self w)) ++ " to " ++ str_int m
                ++ " (" ++ name ++ ")")])%list
        (with_driving_mode m (self w)) /\
    exists before,
      trace w' =
        (before
         ++ [(Print ("Driving mode set to: " ++ str_int m
                     ++ " (" ++ name ++ ")"), self w')])%list.
Proof.
  intros Hm. apply int_in_modes in Hm. cbn in Hm.
  unfold exec, set_driving_mode, entry_at.
  destruct Hm as [<- | [<- | [<- | []]]];
    (eexists; split; [reflexivity |]; split; [reflexivity |];
     eexists; reflexivity).
Qed.

(** X12.  The log only grows: after any call a thread makes on the
    object, and after any run of the sensing loop, the heartbeat loop, the
    LCM loop or [start], the log is the log before followed by the entries
    added; no entry is ever removed or rewritten. *)
Theorem log_only_grows (w : World) :
  (forall a, extends_log (log_messages (self w)) (self (exec (perform a) w))) /\
  (forall frames,
      extends_log (log_messages (self w))
        (self (exec (process_frame frames) w))) /\
  (forall turns,
      extends_log (log_messages (self w))
        (self (exec (send_heartbeat turns) w))) /\
  (forall arrivals,
      extends_log (log_messages (self w))
        (self (exec (_lcm_handler_loop arrivals) w))) /\
  (forall opened input,
      extends_log (log_messages (self w))
        (self (exec (start opened input) w))).
Proof.
  pose proof (stable_extends_log (log_messages (self w))) as Hs.
  assert (H0 : extends_log (log_messages (self w)) (self w))
    by (exists []; rewrite app_nil_r; reflexivity).
  split; [| split; [| split; [| split]]]; intros.
  - exact (stable_perform _ Hs a w H0).
  - exact (stable_process_frame _ Hs frames w H0).
  - exact (stable_send_heartbeat _ Hs turns w H0).
  - exact (stable__lcm_handler_loop _ Hs arrivals w H0).
  - exact (stable_start _ Hs opened input w H0).
Qed.

(** X13.  The camera id, the threshold, the minimum area and the vehicle
    id the object was built with never change: no call a thread makes and
    no loop writes them. *)
Theorem identity_never_changes (w : World) :
  (forall a, identity (self (exec (perform a) w)) = identity (self w)) /\
  (forall frames,
      identity (self (exec (process_frame frames) w)) = identity (self w)) /\
  (forall turns,
      identity (self (exec (send_heartbeat turns) w)) = identity (self w)) /\
  (forall arrivals,
      identity (self (exec (_lcm_handler_loop arrivals) w))
        = identity (self w)) /\
  (forall opened input,
      identity (self (exec (start opened input) w)) = identity (self w)).
Proof.
  pose proof (stable_identity (identity (self w))) as Hs.
  split; [| split; [| split; [| split]]]; intros.
  - exact (stable_perform _ Hs a w eq_refl).
  - exact (stable_process_frame _ Hs frames w eq_refl).
  - exact (stable_send_heartbeat _ Hs turns w eq_refl).
  - exact (stable__lcm_handler_loop _ Hs arrivals w eq_refl).
  - exact (stable_start _ Hs opened input w eq_refl).
Qed.

(** X15.  Once [running] is false, as [stop] leaves it, no loop of the
    module does anything: the sensing loop, the heartbeat loop, the LCM
    loop and the console loop return at once, whatever their input, and
    leave the world as it is. *)
Theorem loops_end_when_stopped (w : World) :
  running (self w) = false ->
  (forall frames, process_frame frames w = (Returned tt, w)) /\
  (forall turns, send_heartbeat turns w = (Returned tt, w)) /\
  (forall arrivals, _lcm_handler_loop arrivals w = (Returned tt, w)) /\
  (forall input, command_loop input w = (Returned tt, w)).
Proof.
  intros H. split; [| split; [| split]]; intros.
  - apply idle_process_frame, H.
  - apply idle_send_heartbeat, H.
  - apply idle__lcm_handler_loop, H.
  - apply idle_command_loop, H.
Qed.

(** X16.  The sensing loop handles frames one after the other: over
    frames that are read well and at which [q] is not pressed, followed by
    further frames, it does what it does over the first and then over the
    further ones. *)
Theorem sensing_loop_composes (pre post : list (option frame)) :
  Forall clear_frame pre ->
  forall w,
    process_frame (pre ++ post) w
      = (process_frame pre ;; process_frame post) w.
Proof. intros Hpre w. apply process_frame_app, Hpre. Qed.

(** X17.  The sensing loop ends at the first frame that is not read or
    at which [q] is pressed: the frames after it are never handled. *)
Theorem sensing_loop_ends
    (pre : list (option frame)) (f : option frame) (rest : list (option frame)) :
  Forall clear_frame pre ->
  last_frame f ->
  forall w,
    process_frame (pre ++ f :: rest) w = process_frame (pre ++ [f]) w.
Proof.
  intros Hpre Hf w.
  rewrite !(process_frame_app pre _ Hpre). unfold bind.
  destruct (process_frame pre w) as [[[] | e] w1]; [| reflexivity].
  destruct Hf as [-> | [fr [-> Hq]]].
  - reflexivity.
  - unfold pressed_q in Hq. cbn [process_frame]. rewrite Hq. reflexivity.
Qed.

(** X18.  In mode 1 the sensing loop publishes a warning for every frame
    in which something moves, not only for the first of a run of them:
    over such frames it publishes as many warnings as there are frames, and
    it leaves the brake lights on. *)
Theorem head_warns_every_frame (frames : list (option frame)) :
  Forall moving_frame frames ->
  forall w,
    driving_mode (self w) = 1 ->
    running (self w) = true ->
    let w' := exec (process_frame frames) w in
    (frames <> [] -> brake_lights_on (self w') = true) /\
    exists delta,
      trace w' = (trace w ++ delta)%list /\
      count_on "WARNING" delta = List.length frames.
Proof.
  induction 1 as [| f rest [fr [-> [Hmotion Hq]]] Hrest IH];
    intros w Hmode Hrun.
  - cbn. split; [intros H; contradiction |].
    exists []. split; [rewrite app_nil_r; reflexivity | reflexivity].
  - cbv zeta. unfold exec.
    rewrite (process_frame_step fr rest w Hrun Hq).
    destruct (sense_as_head fr w Hmode Hmotion) as [Hlit [d1 [Ht1 Hc1]]].
    pose proof (sense_keeps_mode fr w) as Hm1. rewrite Hmode in Hm1.
    pose proof (sense_keeps_running fr w) as Hr1. rewrite Hrun in Hr1.
    destruct (IH _ Hm1 Hr1) as [Hlit2 [d2 [Ht2 Hc2]]].
    unfold exec in *. split.
    + intros _. destruct rest as [| f2 rest2].
      * cbn. exact Hlit.
      * apply Hlit2. discriminate.
    + exists (d1 ++ d2)%list. split.
      * rewrite Ht2, Ht1, app_assoc. reflexivity.
      * rewrite count_on_app, Hc1, Hc2. reflexivity.
Qed.

(** X19.  While [running] is true the heartbeat loop publishes one
    heartbeat a turn in modes 1 and 2, and nothing else: after [turns]
    turns it has published [turns] messages, all of them heartbeats.  In
    any other mode, mode 0 among them, it leaves the world as it is. *)
Theorem heartbeat_every_turn (turns : nat) :
  forall w,
    running (self w) = true ->
    let w' := exec (send_heartbeat turns) w in
    (int_in (driving_mode (self w)) [1; 2] = true ->
     exists delta,
       trace w' = (trace w ++ delta)%list /\
       count_on "HEARTBEAT" delta = turns /\
       List.length (published delta) = turns) /\
    (int_in (driving_mode (self w)) [1; 2] = false -> w' = w).
Proof.
  induction turns as [| turns IH]; intros w Hrun; cbv zeta.
  - split; intros _; [| reflexivity].
    exists []. split; [cbn; rewrite app_nil_r; reflexivity |].
    split; reflexivity.
  - unfold exec. rewrite (send_heartbeat_step turns w Hrun).
    split; intros Hmode.
    + destruct (tick_in_convoy w Hmode)
        as [w1 [d1 [E [Hm1 [Hr1 [Ht1 [Hc1 Hp1]]]]]]].
      unfold bind. rewrite E.
      rewrite Hrun in Hr1. rewrite <- Hm1 in Hmode.
      destruct (IH w1 Hr1) as [[d2 [Ht2 [Hc2 Hp2]]] _]; [exact Hmode |].
      unfold exec in *. exists (d1 ++ d2)%list. split; [| split].
      * rewrite Ht2, Ht1, app_assoc. reflexivity.
      * rewrite count_on_app, Hc1, Hc2. reflexivity.
      * unfold published in *.
        rewrite map_app, filter_app, length_app, Hp1, Hp2. reflexivity.
    + unfold bind. rewrite (tick_outside_convoy w Hmode).
      destruct (IH w Hrun) as [_ Hidle]. apply Hidle, Hmode.
Qed.

(** X21.  [show_logs] prints a heading, the last ten entries of the log
    in the order they were logged, all of them when the log has ten or
    fewer and none when it is empty, and an empty line; it raises nothing
    and changes no field. *)
Theorem show_logs_shows_recent (w : World) :
  let logs := log_messages (self w) in
  show_logs w =
    (Returned tt,
     {| self := self w;
        trace :=
          (trace w
           ++ map (fun l => (Print l, self w))
                ((newline ++ "=== Recent Logs ===")%string
                 :: last_n 10 logs ++ [""]))%list;
        clock := clock w |}) /\
  List.length (last_n 10 logs) = Nat.min 10 (List.length logs) /\
  (exists older, logs = (older ++ last_n 10 logs)%list) /\
  ((List.length logs <= 10)%nat -> last_n 10 logs = logs).
Proof.
  cbv zeta. split; [| split; [| split]].
  - unfold show_logs. unfold bind at 1. unfold print at 1. unfold emit.
    unfold bind at 1. unfold get at 1. cbn [self trace clock].
    unfold bind. rewrite print_each_prints. cbn [self trace clock].
    unfold print, emit. cbn [self trace clock].
    cbn [map]. rewrite map_app. cbn [map]. rewrite <- !app_assoc.
    reflexivity.
  - unfold last_n. rewrite length_skipn. lia.
  - exists (firstn (List.length (log_messages (self w)) - 10)
              (log_messages (self w))).
    unfold last_n. rewrite firstn_skipn. reflexivity.
  - intros H. unfold last_n.
    replace (List.length (log_messages (self w)) - 10)%nat with 0%nat by lia.
    reflexivity.
Qed.


End Further.

(** * Further properties, whatever the wire refuses *)

Section OnAnyWire.
Context {P : Platform} {W : Wire}.

(** X14.  Where an exception of [encode()] or of [publish] goes.  The two
    LCM handlers, the LCM loop and [start] catch it: they return in every
    world, whatever arrives and whatever the wire refuses; so does
    [show_logs], and [show_status] while the driving mode is 0, 1 or 2.
    Nothing catches it in the heartbeat loop or in [set_driving_mode]: a
    heartbeat refused by [encode()] ends [send_heartbeat] with the
    exception, the clock read and nothing else done, and a mode change
    refused by [encode()] ends [set_driving_mode] with the exception, the
    driving mode already written, nothing published and nothing logged. *)
Theorem exceptions_caught_or_not :
  (forall w channel data,
      result (_handle_warning_message channel data) w = Returned tt /\
      result (_handle_mode_message channel data) w = Returned tt) /\
  (forall w arrivals, result (_lcm_handler_loop arrivals) w = Returned tt) /\
  (forall w opened input, result (start opened input) w = Returned tt) /\
  (forall w, result show_logs w = Returned tt) /\
  (forall w, valid_mode (self w) -> result show_status w = Returned tt) /\
  (forall w turns e,
      running (self w) = true ->
      driving_mode (self w) = 1 \/ driving_mode (self w) = 2 ->
      heartbeat_refused (heartbeat_of w) = Some e ->
      send_heartbeat (S turns) w =
        (Raised e,
         {| self := self w; trace := trace w; clock := S (clock w) |})) /\
  (forall w m e,
      m = 0 \/ m = 1 \/ m = 2 ->
      mode_refused (mode_change_of w m) = Some e ->
      set_driving_mode m w =
        (Raised e,
         {| self := with_driving_mode m (self w); trace := trace w;
            clock := S (clock w) |})).
Proof.
  split; [| split; [| split; [| split; [| split; [| split]]]]].
  - intros w channel data. split; apply returns_tt.
    + apply returns__handle_warning_message.
    + apply returns__handle_mode_message.
  - intros w arrivals. apply returns_tt, returns__lcm_handler_loop.
  - intros w opened input. apply returns_tt, returns_start.
  - intros w. apply returns_tt, returns_show_logs.
  - intros w. apply show_status_returns.
  - intros w turns e Hrun Hmode Hrefused.
    unfold heartbeat_of in Hrefused. open_world w. subst.
    cbn [send_heartbeat]. unfold send_heartbeat_tick. unfold_monad.
    destruct Hmode as [-> | ->]; cbn; rewrite Hrefused; reflexivity.
  - intros w m e Hm Hrefused.
    unfold mode_change_of in Hrefused. open_world w.
    unfold set_driving_mode. unfold_monad.
    destruct Hm as [-> | [-> | ->]];
      change (int_in _ [0; 1; 2]) with true; cbv iota;
      rewrite ?mode_name_0, ?mode_name_1, ?mode_name_2 in *; cbn;
      rewrite Hrefused; reflexivity.
Qed.

(** X20.  In mode 2 every warning that arrives from another vehicle and
    whose relay the wire lets through is relayed, with nothing to tell a
    warning already relayed from a new one: over such arrivals the LCM
    loop publishes as many warnings as arrive. *)
Theorem member_relays_every_warning
    (arrivals : list (option (string * bytes))) (vid : Z) :
  Forall (relayable vid) arrivals ->
  forall w,
    vehicle_id (self w) = vid ->
    driving_mode (self w) = 2 ->
    running (self w) = true ->
    exists delta,
      trace (exec (_lcm_handler_loop arrivals) w) = (trace w ++ delta)%list /\
      count_on "WARNING" delta = List.length arrivals.
Proof.
  induction 1 as [| a rest Ha Hrest IH]; intros w Hvid Hmode Hrun.
  - exists []. split; [cbn; rewrite app_nil_r; reflexivity | reflexivity].
  - unfold exec. rewrite (_lcm_handler_loop_step a rest w Hrun).
    rewrite <- Hvid in Ha.
    destruct (relay_of_relayable a w Hmode Ha)
      as [Hm1 [Hr1 [Hv1 [_ [d1 [Ht1 Hc1]]]]]].
    rewrite Hrun in Hr1. rewrite Hvid in Hv1.
    destruct (IH _ Hv1 Hm1 Hr1) as [d2 [Ht2 Hc2]].
    unfold exec in *. exists (d1 ++ d2)%list. split.
    + rewrite Ht2, Ht1, app_assoc. reflexivity.
    + rewrite count_on_app, Hc1, Hc2. reflexivity.
Qed.

End OnAnyWire.

(** * The claims on the bench

    Vehicle 7 on the platform [Bench.platform]: each statement above that
    has a premise is applied to it. *)

Module OnBench.
#[local] Existing Instance lossless.

Lemma C2_witness :
  (1 = 0 \/ 1 = 1 \/ 1 = 2) /\
  driving_mode
    (self (exec (@set_driving_mode Bench.platform lossless 1)
             (Bench.vehicle 0 false))) = 1.
Proof.
  assert (H : 1 = 0 \/ 1 = 1 \/ 1 = 2) by (right; left; reflexivity).
  split; [exact H |].
  exact (proj1 (proj2 (@C2_set_mode_publishes_once Bench.platform
                         (Bench.vehicle 0 false) 1 H))).
Defined.

Lemma C3_witness :
  5 <> 0 /\ 5 <> 1 /\ 5 <> 2 /\
  self (exec (@set_driving_mode Bench.platform lossless 5) (Bench.vehicle 1 true))
    = self (Bench.vehicle 1 true).
Proof.
  assert (H0 : 5 <> 0) by lia.
  assert (H1 : 5 <> 1) by lia.
  assert (H2 : 5 <> 2) by lia.
  split; [exact H0 |]. split; [exact H1 |]. split; [exact H2 |].
  unfold exec.
  rewrite (@C3_invalid_mode_rejected Bench.platform
             (Bench.vehicle 1 true) 5 H0 H1 H2).
  reflexivity.
Defined.

Lemma C4_witness :
  @_handle_warning_message Bench.platform lossless "WARNING" Bench.warning_from_7
    (Bench.vehicle 2 false) = (Returned tt, Bench.vehicle 2 false) /\
  @_handle_mode_message Bench.platform "MODE" Bench.mode_from_7
    (Bench.vehicle 2 false) = (Returned tt, Bench.vehicle 2 false).
Proof.
  split.
  - exact (proj1 (@C4_own_messages_dropped Bench.platform
                    (Bench.vehicle 2 false) "WARNING" Bench.warning_from_7)
             _ eq_refl eq_refl).
  - exact (proj2 (@C4_own_messages_dropped Bench.platform
                    (Bench.vehicle 2 false) "MODE" Bench.mode_from_7)
             _ eq_refl eq_refl).
Defined.

Lemma C7_witness :
  driving_mode (self (Bench.vehicle 0 false)) = 0 /\
  brake_lights_on (self (Bench.vehicle 0 false)) = false /\
  running (self (Bench.vehicle 0 false)) = true /\
  pressed_q (-1) = false /\
  brake_lights_on
    (self (exec (@process_frame Bench.platform lossless
                   (samples true true false (-1) (-1) (-1)))
             (Bench.vehicle 0 false))) = false.
Proof.
  split; [reflexivity |]. split; [reflexivity |]. split; [reflexivity |].
  split; [reflexivity |].
  exact (proj1 (proj2 (proj2
           (@C7_single_mode_sequence Bench.platform (Bench.vehicle 0 false)
              (-1) (-1) (-1) eq_refl eq_refl eq_refl eq_refl eq_refl)))).
Defined.

Lemma C8_witness :
  driving_mode (self (Bench.vehicle 2 false)) = 2 /\
  self (exec (@perform Bench.platform lossless
                (Sense {| motion := true; key := -1 |}))
          (Bench.vehicle 2 false))
    = with_motion_detected true (self (Bench.vehicle 2 false)).
Proof.
  split; [reflexivity |].
  exact (proj1 (proj1 (proj2
           (@C8_member_ignores_samples Bench.platform
              (Bench.vehicle 2 false) eq_refl))
           {| motion := true; key := -1 |})).
Defined.

(** The actuator's claim as worded fails on vehicle 7 in mode 0 with the
    lights off, asked to turn them on: the lights go on and the event log
    stays empty. *)
Lemma C6_counterexample :
  ~ @brake_edge_logged Bench.platform (Bench.vehicle 0 false) true.
Proof.
  unfold brake_edge_logged. cbn.
  intros [_ [entry [Hlog _]]]. discriminate Hlog.
Qed.

(** The claim on the samples true, true, false as worded fails on
    vehicle 7 in mode 0 with the lights off: the event log gains two
    entries, neither of them for the lights going off. *)
Lemma C7_counterexample :
  ~ @single_mode_edges_logged Bench.platform (Bench.vehicle 0 false).
Proof.
  unfold single_mode_edges_logged.
  intros [entries [delta [Hlog [_ [_ [Hoff _]]]]]].
  vm_compute in Hlog. subst entries.
  vm_compute in Hoff. discriminate Hoff.
Qed.

(** The claim on synchronisation as worded fails on vehicle 7 in mode 1:
    the turn tests the mode, the console changes the mode to 0, the turn
    publishes its heartbeat.  The mode change is published before the
    heartbeat, as when the change comes first, and the heartbeat is
    published, as when the turn comes first. *)
Lemma C9_counterexample :
  ~ @synchronised Bench.platform (Bench.vehicle 1 false) 0.
Proof.
  intros H.
  pose (turn := @send_heartbeat_tick_thread Bench.platform).
  pose (change := atomically (@set_driving_mode Bench.platform lossless 0)).
  pose (w' := snd (schedule [true; false; true] turn change
                     (Bench.vehicle 1 false))).
  assert (Hi : interleaves turn change (Bench.vehicle 1 false) w').
  { apply (schedule_interleaves [true; false; true]).
    vm_compute. reflexivity. }
  destruct (H w' Hi) as [E | E];
    apply (f_equal (fun w => map fst (trace w))) in E;
    vm_compute in E; discriminate E.
Qed.

Lemma C9_witness :
  (driving_mode (self (Bench.vehicle 1 false)) = 1 \/
   driving_mode (self (Bench.vehicle 1 false)) = 2) /\
  run (@send_heartbeat_tick_thread Bench.platform) (Bench.vehicle 1 false)
    = @send_heartbeat_tick Bench.platform lossless (Bench.vehicle 1 false).
Proof.
  split; [left; reflexivity |].
  exact (proj1 (@C9_consistent_when_uninterrupted Bench.platform
                  (Bench.vehicle 1 false))).
Defined.

End OnBench.

(** * The further properties on the bench *)

Module OnTrial.
#[local] Existing Instance lossless.

Lemma head_sample_warns_witness :
  driving_mode (self (Trial.sensing 1 false)) = 1 /\
  motion_detected (self (Trial.sensing 1 false)) = true /\
  brake_lights_on
    (self (exec (@handle_driving_mode Bench.platform lossless)
             (Trial.sensing 1 false))) = true.
Proof.
  split; [reflexivity |]. split; [reflexivity |].
  exact (proj1 (proj2 (@head_sample_warns Bench.platform
                         (Trial.sensing 1 false) eq_refl eq_refl))).
Defined.

Lemma no_motion_releases_brake_witness :
  (driving_mode (self (Bench.vehicle 0 true)) = 0 \/
   driving_mode (self (Bench.vehicle 0 true)) = 1) /\
  motion_detected (self (Bench.vehicle 0 true)) = false /\
  self (exec (@handle_driving_mode Bench.platform lossless) (Bench.vehicle 0 true))
    = with_brake_lights_on false (self (Bench.vehicle 0 true)).
Proof.
  split; [left; reflexivity |]. split; [reflexivity |].
  exact (proj1 (proj2 (@no_motion_releases_brake Bench.platform
                         (Bench.vehicle 0 true) (or_introl eq_refl) eq_refl))).
Defined.

Lemma undecodable_message_logged_witness :
  @warning_decode Bench.platform Trial.garbled = Raised "Decode error" /\
  @_handle_warning_message Bench.platform lossless "WARNING" Trial.garbled
    (Bench.vehicle 2 false)
    = (Returned tt,
       @logged Bench.platform (Bench.vehicle 2 false)
         "Error handling warning message: Decode error").
Proof.
  split; [reflexivity |].
  exact (proj1 (@undecodable_message_logged Bench.platform
                  (Bench.vehicle 2 false) "WARNING" Trial.garbled
                  "Decode error") eq_refl).
Defined.

Lemma foreign_warning_outside_convoy_witness :
  @warning_decode Bench.platform Bench.warning_from_3 = Returned Bench.from_3 /\
  warning_t.vehicle_id Bench.from_3 <> vehicle_id (self (Bench.vehicle 1 false)) /\
  driving_mode (self (Bench.vehicle 1 false)) <> 2 /\
  @_handle_warning_message Bench.platform lossless "WARNING" Bench.warning_from_3
    (Bench.vehicle 1 false)
    = (Returned tt,
       @logged Bench.platform (Bench.vehicle 1 false)
         "Received warning from vehicle 3: Motion detected").
Proof.
  assert (H2 : warning_t.vehicle_id Bench.from_3
               <> vehicle_id (self (Bench.vehicle 1 false))) by (cbn; lia).
  assert (H3 : driving_mode (self (Bench.vehicle 1 false)) <> 2)
    by (cbn; lia).
  split; [reflexivity |]. split; [exact H2 |]. split; [exact H3 |].
  exact (@foreign_warning_outside_convoy Bench.platform
           (Bench.vehicle 1 false) "WARNING" Bench.warning_from_3
           Bench.from_3 eq_refl H2 H3).
Defined.

Lemma foreign_mode_change_logged_witness :
  @mode_decode Bench.platform Trial.mode_from_3 = Returned Trial.mode_3 /\
  mode_t.vehicle_id Trial.mode_3 <> vehicle_id (self (Bench.vehicle 2 false)) /\
  driving_mode
    (self (exec (@_handle_mode_message Bench.platform "MODE" Trial.mode_from_3)
             (Bench.vehicle 2 false))) = 2.
Proof.
  assert (H2 : mode_t.vehicle_id Trial.mode_3
               <> vehicle_id (self (Bench.vehicle 2 false))) by (cbn; lia).
  split; [reflexivity |]. split; [exact H2 |].
  unfold exec.
  rewrite (@foreign_mode_change_logged Bench.platform
             (Bench.vehicle 2 false) "MODE" Trial.mode_from_3
             Trial.mode_3 eq_refl H2).
  reflexivity.
Defined.

Lemma mode_change_logged_witness :
  int_in 2 [0; 1; 2] = true /\
  exists name, getitem mode_names 2 = Some name.
Proof.
  split; [reflexivity |].
  destruct (@mode_change_logged Bench.platform (Bench.vehicle 2 false) 2
              eq_refl) as [name [Hname _]].
  exists name. exact Hname.
Defined.

Lemma loops_end_when_stopped_witness :
  running (self Trial.stopped) = false /\
  @process_frame Bench.platform lossless [Trial.moving] Trial.stopped
    = (Returned tt, Trial.stopped).
Proof.
  split; [reflexivity |].
  exact (proj1 (@loops_end_when_stopped Bench.platform Trial.stopped eq_refl)
           [Trial.moving]).
Defined.

Lemma moving_is_clear : clear_frame Trial.moving.
Proof. eexists. split; reflexivity. Qed.

Lemma moving_is_moving : moving_frame Trial.moving.
Proof. eexists. split; [reflexivity |]. split; reflexivity. Qed.

Lemma sensing_loop_composes_witness :
  Forall clear_frame [Trial.moving] /\
  @process_frame Bench.platform lossless ([Trial.moving] ++ [Trial.still])
    (Bench.vehicle 0 false)
    = (@process_frame Bench.platform lossless [Trial.moving] ;;
       @process_frame Bench.platform lossless [Trial.still])%monad
        (Bench.vehicle 0 false).
Proof.
  assert (H : Forall clear_frame [Trial.moving])
    by (constructor; [apply moving_is_clear | constructor]).
  split; [exact H |].
  exact (@sensing_loop_composes Bench.platform [Trial.moving] [Trial.still]
           H (Bench.vehicle 0 false)).
Defined.

Lemma sensing_loop_ends_witness :
  Forall clear_frame [Trial.moving] /\
  last_frame None /\
  @process_frame Bench.platform lossless ([Trial.moving] ++ None :: [Trial.moving])
    (Bench.vehicle 0 false)
    = @process_frame Bench.platform lossless ([Trial.moving] ++ [None])
        (Bench.vehicle 0 false).
Proof.
  assert (H : Forall clear_frame [Trial.moving])
    by (constructor; [apply moving_is_clear | constructor]).
  assert (Hl : last_frame None) by (left; reflexivity).
  split; [exact H |]. split; [exact Hl |].
  exact (@sensing_loop_ends Bench.platform [Trial.moving] None
           [Trial.moving] H Hl (Bench.vehicle 0 false)).
Defined.

Lemma head_warns_every_frame_witness :
  Forall moving_frame [Trial.moving; Trial.moving] /\
  driving_mode (self (Bench.vehicle 1 false)) = 1 /\
  running (self (Bench.vehicle 1 false)) = true /\
  exists delta,
    trace (exec (@process_frame Bench.platform lossless [Trial.moving; Trial.moving])
             (Bench.vehicle 1 false))
      = (trace (Bench.vehicle 1 false) ++ delta)%list /\
    count_on "WARNING" delta = 2%nat.
Proof.
  assert (H : Forall moving_frame [Trial.moving; Trial.moving])
    by (repeat constructor; apply moving_is_moving).
  split; [exact H |]. split; [reflexivity |]. split; [reflexivity |].
  exact (proj2 (@head_warns_every_frame Bench.platform
                  [Trial.moving; Trial.moving] H (Bench.vehicle 1 false)
                  eq_refl eq_refl)).
Defined.

Lemma heartbeat_every_turn_witness :
  running (self (Bench.vehicle 2 false)) = true /\
  exists delta,
    trace (exec (@send_heartbeat Bench.platform lossless 3) (Bench.vehicle 2 false))
      = (trace (Bench.vehicle 2 false) ++ delta)%list /\
    count_on "HEARTBEAT" delta = 3%nat /\
    List.length (published delta) = 3%nat.
Proof.
  split; [reflexivity |].
  exact (proj1 (@heartbeat_every_turn Bench.platform 3
                  (Bench.vehicle 2 false) eq_refl) eq_refl).
Defined.

(** The warning of vehicle 3 is relayable by vehicle 7 on the wire of
    the schema. *)
Lemma arrival_is_relayable :
  @relayable Bench.platform Struct.wire 7 Trial.arrival_from_3.
Proof.
  exists Bench.warning_from_3, Bench.from_3.
  split; [reflexivity |]. split; [reflexivity |].
  split; [cbn; lia |]. split; [reflexivity | intros w; reflexivity].
Qed.

Lemma member_relays_every_warning_witness :
  Forall (@relayable Bench.platform Struct.wire 7)
    [Trial.arrival_from_3; Trial.arrival_from_3] /\
  vehicle_id (self (Bench.vehicle 2 false)) = 7 /\
  driving_mode (self (Bench.vehicle 2 false)) = 2 /\
  running (self (Bench.vehicle 2 false)) = true /\
  exists delta,
    trace (exec (@_lcm_handler_loop Bench.platform Struct.wire
                   [Trial.arrival_from_3; Trial.arrival_from_3])
             (Bench.vehicle 2 false))
      = (trace (Bench.vehicle 2 false) ++ delta)%list /\
    count_on "WARNING" delta = 2%nat.
Proof.
  assert (H : Forall (@relayable Bench.platform Struct.wire 7)
                [Trial.arrival_from_3; Trial.arrival_from_3])
    by (repeat constructor; apply arrival_is_relayable).
  split; [exact H |]. split; [reflexivity |]. split; [reflexivity |].
  split; [reflexivity |].
  exact (@member_relays_every_warning Bench.platform Struct.wire
           [Trial.arrival_from_3; Trial.arrival_from_3] 7 H
           (Bench.vehicle 2 false) eq_refl eq_refl eq_refl).
Defined.

End OnTrial.
